(** * A shallow embedding of the query-answering service (app.py, utils.py)

    The service answers a question in five stages: search (Serper), fetch
    (one GET per result), clean (BeautifulSoup), concatenate, summarise
    (ChatGroq).  The Python functions are embedded as Rocq functions:

    - Python values that travel through the handler (the request body, the
      provider's JSON, the model's reply) are terms of [value];
    - Python [str] is [string], one [ascii] standing for one character;
    - the network, the HTML parser and the language-model client are
      collaborators outside the repository: they are variables of the section
      [Service], functions from the state of the outside world to an outcome
      and a new state of the world;
    - exceptions are the [Raise] outcome of the monad [M]; [try ... except]
      is [try_except];
    - every entry into [search_articles], [fetch_article_content] and
      [generate_answer], and every request sent to a collaborator, is
      recorded in a trace, so that "is never invoked" can be stated.

    Calls to [logger] are not embedded: they do not raise.  The two calls
    to [print] in [fetch_article_content] are, since a failure to write to
    the standard output is caught there like any other. *)

From Stdlib Require Import List String Ascii ZArith Lia Bool Arith DecimalString.
Import ListNotations.
Local Open Scope string_scope.

Set Implicit Arguments.
Set Warnings "-register-all".

(** ** Python strings *)

Module PyStr.

(** The newline character of the f-strings. *)
Definition nl : string := String (ascii_of_nat 10) EmptyString.

(** [str(n)] for a non-negative integer. *)
Definition str_of_nat (n : nat) : string :=
  NilZero.string_of_uint (Nat.to_uint n).

(** [sep.join(parts)] *)
Fixpoint join (sep : string) (parts : list string) : string :=
  match parts with
  | [] => ""
  | [p] => p
  | p :: rest => p ++ sep ++ join sep rest
  end.

(** [s * n] *)
Fixpoint times (s : string) (n : nat) : string :=
  match n with
  | O => ""
  | S n' => s ++ times s n'
  end.

(** [s[:n]] *)
Fixpoint slice_to (n : nat) (s : string) {struct s} : string :=
  match s, n with
  | String c s', S n' => String c (slice_to n' s')
  | _, _ => ""
  end.

(** [c.isspace()] on the code points below 256: TAB, LF, VT, FF, CR, the
    separators FS, GS, RS, US, the space, NEL and the no-break space. *)
Definition isspace (c : ascii) : bool :=
  let n := nat_of_ascii c in
  ((9 <=? n)%nat && (n <=? 13)%nat) || ((28 <=? n)%nat && (n <=? 32)%nat)
  || (n =? 133)%nat || (n =? 160)%nat.

(** [s.lstrip()] *)
Fixpoint lstrip (s : string) : string :=
  match s with
  | String c s' => if isspace c then lstrip s' else s
  | EmptyString => ""
  end.

(** [s.rstrip()] *)
Fixpoint rstrip (s : string) : string :=
  match s with
  | String c s' =>
      match rstrip s' with
      | EmptyString => if isspace c then "" else String c ""
      | r => String c r
      end
  | EmptyString => ""
  end.

(** [s.strip()] *)
Definition strip (s : string) : string := rstrip (lstrip s).

(** [bool(s)] *)
Definition truthy (s : string) : bool :=
  match s with EmptyString => false | _ => true end.

(** [needle in s] on two strings: [needle] occurs in [s]. *)
Fixpoint contains (needle s : string) : bool :=
  prefix needle s ||
  match s with
  | String _ s' => contains needle s'
  | EmptyString => false
  end.

End PyStr.

(** ** Python values and exceptions *)

(** What [json.loads] can produce.  A number is only ever tested for truth
    and for being a container, so integers stand for all numbers.  A [dict]
    keeps its insertion order; lookup takes the first binding of a key. *)
Inductive value : Type :=
| VNone
| VBool (b : bool)
| VNum (z : Z)
| VStr (s : string)
| VList (l : list value)
| VDict (d : list (string * value)).

(** The exception classes the code distinguishes; [OtherError] is any other
    subclass of [Exception].  What is not an [Exception] (a keyboard
    interrupt, an exit of the interpreter) is outside the embedding. *)
Inductive exn_class : Type :=
| AttributeError | TypeError | KeyError | ValueError
| OtherError (name : string).

Record exn : Type := { exn_cls : exn_class; exn_str : string }.

Definition is_AttributeError (e : exn) : bool :=
  match exn_cls e with AttributeError => true | _ => false end.

Inductive result (A : Type) : Type :=
| Ok (a : A)
| Raise (e : exn).
Arguments Raise {A} e.

Module Py.

(** [bool(v)] *)
Definition truthy (v : value) : bool :=
  match v with
  | VNone => false
  | VBool b => b
  | VNum z => negb (z =? 0)%Z
  | VStr s => PyStr.truthy s
  | VList l => match l with [] => false | _ => true end
  | VDict d => match d with [] => false | _ => true end
  end.

Fixpoint lookup (key : string) (d : list (string * value)) : option value :=
  match d with
  | [] => None
  | (k, v) :: d' => if String.eqb k key then Some v else lookup key d'
  end.

Definition is_str (key : string) (v : value) : bool :=
  match v with VStr s => String.eqb s key | _ => false end.

Definition type_error (what : string) : exn :=
  {| exn_cls := TypeError; exn_str := what |}.

(** [type(v).__name__], as the texts of a [TypeError] quote it; a number is
    named as an [int]. *)
Definition type_name (v : value) : string :=
  match v with
  | VNone => "NoneType"
  | VBool _ => "bool"
  | VNum _ => "int"
  | VStr _ => "str"
  | VList _ => "list"
  | VDict _ => "dict"
  end.

(** [key in v] for a string [key]: a key of a dict, an element of a list,
    a substring of a string; anything else is not iterable. *)
Definition contains (key : string) (v : value) : result bool :=
  match v with
  | VDict d => Ok (match lookup key d with Some _ => true | None => false end)
  | VList l => Ok (existsb (is_str key) l)
  | VStr s => Ok (PyStr.contains key s)
  | _ => Raise (type_error ("argument of type '" ++ type_name v
                            ++ "' is not iterable"))
  end.

(** [v[key]] for a string [key].  The text of a [KeyError] is the [repr] of
    the key: the key between quotes, for the keys the code uses. *)
Definition getitem (v : value) (key : string) : result value :=
  match v with
  | VDict d =>
      match lookup key d with
      | Some x => Ok x
      | None => Raise {| exn_cls := KeyError; exn_str := "'" ++ key ++ "'" |}
      end
  | VList _ => Raise (type_error "list indices must be integers or slices, not str")
  | VStr _ => Raise (type_error "string indices must be integers, not 'str'")
  | _ => Raise (type_error ("'" ++ type_name v
                            ++ "' object is not subscriptable"))
  end.

Fixpoint chars (s : string) : list value :=
  match s with
  | String c s' => VStr (String c "") :: chars s'
  | EmptyString => []
  end.

(** What [for x in v] iterates over: the elements of a list, the keys of a
    dict, the characters of a string. *)
Definition iter (v : value) : result (list value) :=
  match v with
  | VList l => Ok l
  | VDict d => Ok (map (fun kv => VStr (fst kv)) d)
  | VStr s => Ok (chars s)
  | _ => Raise (type_error ("'" ++ type_name v ++ "' object is not iterable"))
  end.

End Py.

(** ** utils.concatenate_content *)

(** One entry of [article_content]: the dict [{"url": url, "content": content}]. *)
Record Article : Type := { url : value; content : string }.

(** The block appended for the article numbered [idx]:
    [f"Article {idx}:\n{article['content']}\n\n"]. *)
Definition article_block (idx : nat) (text : string) : string :=
  "Article " ++ PyStr.str_of_nat idx ++ ":" ++ PyStr.nl ++ text
             ++ PyStr.nl ++ PyStr.nl.

(** The [for idx, article in enumerate(articles, 1)] loop; [combined_content]
    is the list the loop appends to. *)
Fixpoint concatenate_loop (idx : nat) (articles : list Article)
    (combined_content : list string) : list string :=
  match articles with
  | [] => combined_content
  | article :: rest =>
      let block := article_block idx (content article) in
      concatenate_loop (S idx) rest (combined_content ++ [block])%list
  end.

Definition concatenate_content (articles : list Article) : string :=
  PyStr.join PyStr.nl (concatenate_loop 1 articles []).

(** ** The parsed page (BeautifulSoup) *)

(** A node of the tree that [BeautifulSoup(response.content, "html.parser")]
    builds: a string of text, a string that [get_text] leaves out (a comment,
    a doctype), or a tag with its children.  The soup itself is a tag. *)
Inductive node : Type :=
| Text (s : string)
| Comment (s : string)
| Tag (name : string) (children : list node).

Module Soup.

Definition named (names : list string) (n : node) : bool :=
  match n with
  | Tag t _ => existsb (String.eqb t) names
  | _ => false
  end.

(** [n.find_all(names)], also written [n(names)]: the tags below [n] with
    one of these names, in document order. *)
Fixpoint find_all (names : list string) (n : node) : list node :=
  match n with
  | Tag _ kids =>
      flat_map (fun k => ((if named names k then [k] else [])
                          ++ find_all names k)%list) kids
  | _ => []
  end.

(** [for element in n(names): element.decompose()]: every tag with one of
    these names leaves the tree, with all that is below it. *)
Fixpoint decompose_all (names : list string) (n : node) : node :=
  match n with
  | Tag t kids =>
      Tag t (flat_map (fun k => if named names k then []
                                else [decompose_all names k]) kids)
  | _ => n
  end.

(** [n.get_text()]: the text strings below [n], concatenated. *)
Fixpoint get_text (n : node) : string :=
  match n with
  | Text s => s
  | Comment _ => ""
  | Tag _ kids => String.concat "" (map get_text kids)
  end.

End Soup.

(** The elements [fetch_article_content] takes out of the page. *)
Definition unwanted : list string :=
  ["script"; "style"; "nav"; "header"; "footer"].

(** The two literals of [fetch_article_content]: the length [content] is
    cut to, and the line ["-"*100] printed after it. *)
Definition content_limit : nat := 5000.

Definition dashes : string := PyStr.times "-" 100.

(** The [content] that [fetch_article_content] builds from the parsed page,
    before it is cut. *)
Definition page_text (soup : node) : string :=
  let soup := Soup.decompose_all unwanted soup in
  let paragraphs := Soup.find_all ["p"] soup in
  PyStr.join " "
    (map (fun p => PyStr.strip (Soup.get_text p))
         (filter (fun p => PyStr.truthy (PyStr.strip (Soup.get_text p)))
                 paragraphs)).

(** [content[:5000]], what is printed and returned. *)
Definition page_content (soup : node) : string :=
  PyStr.slice_to content_limit (page_text soup).

(** ** The outside world *)

(** A [requests.Response]: its status, what [response.json()] gives, and what
    [BeautifulSoup(response.content, "html.parser")] gives. *)
Record Response : Type := {
  status_code : Z;
  json : result value;
  html : result node
}.

(** What a call of the language-model client returns: [content] and [text]
    are the attributes of these names when the object has them, [as_str] is
    [str(response)]. *)
Record Reply : Type := {
  reply_content : option value;
  reply_text : option value;
  as_str : string
}.

(** One message of the chat: [{"role": role, "content": content}]. *)
Record Message : Type := { role : string; msg_content : string }.

(** What the trace records. *)
Inductive event : Type :=
| CallSearch (query : value) (api_key : option string)
| HttpPost (api_key : option string) (payload : value)
| CallFetch (url : value)
| HttpGet (url : value)
| CallGenerate (content : string) (query : value)
| NewChatGroq (api_key : string)
| LlmInvoke (messages : list Message)
| LlmComplete (prompt : string)
| LlmPredict (prompt : string).

(** The collaborators.  [W] is the state of the outside world, [client] the
    type of a [ChatGroq] object.  [print] writes a line to the standard
    output, which may fail (a closed pipe, a character the console cannot
    encode). *)
Record Services (W client : Type) : Type := {
  requests_post : option string -> value -> W -> result Response * W;
  requests_get : value -> W -> result Response * W;
  print : string -> W -> result unit * W;
  ChatGroq : string -> W -> result client * W;
  llm_invoke : client -> list Message -> W -> result Reply * W;
  llm_complete : client -> string -> W -> result Reply * W;
  llm_predict : client -> string -> W -> result Reply * W
}.

(** The state of the process: the outside world, [LLMManager._instance] and
    the trace. *)
Record state (W client : Type) : Type := {
  world : W;
  instance : option client;
  trace : list event
}.

(** What the handler returns: [jsonify(body), status]. *)
Record HttpReply : Type := { body : value; status : Z }.

Definition error_reply (message : string) (code : Z) : HttpReply :=
  {| body := VDict [("error", VStr message)]; status := code |}.

Definition fallback_answer : string :=
  "Sorry, I couldn't generate an answer at this time.".

(** [x <- r ;; k] on plain outcomes. *)
Definition rbind {A B : Type} (r : result A) (k : A -> result B) : result B :=
  match r with
  | Ok a => k a
  | Raise e => Raise e
  end.

(** [[result['link'] for result in results if 'link' in result]] *)
Fixpoint links (results : list value) : result (list value) :=
  match results with
  | [] => Ok []
  | r :: rest =>
      rbind (Py.contains "link" r) (fun has =>
      if has : bool then
        rbind (Py.getitem r "link") (fun l =>
        rbind (links rest) (fun ls => Ok (l :: ls)))
      else links rest)
  end.

(** [response.raise_for_status()] raises on a 4xx or 5xx status. *)
Definition raise_for_status (response : Response) : result unit :=
  if ((400 <=? status_code response) && (status_code response <? 600))%Z
  then Raise {| exn_cls := OtherError "HTTPError"; exn_str := "HTTP error" |}
  else Ok tt.

(** [ValueError("GROQ_API_KEY not found in environment variables")] *)
Definition config_error : exn :=
  {| exn_cls := ValueError;
     exn_str := "GROQ_API_KEY not found in environment variables" |}.

(** ** The functions of utils.py and app.py that reach the outside world *)

Section Service.

Variables W client : Type.
Variable svc : Services W client.

(** [GROQ_API_KEY] of utils.py and [API_KEY] of app.py: what [os.getenv]
    gave when the module was loaded. *)
Variable GROQ_API_KEY : option string.
Variable API_KEY : option string.

(** The [system_message] of [generate_answer], a constant text of some 190
    lines. *)
Variable system_message : string.

(** [repr] of a value, used where an f-string formats a value that is not
    a string. *)
Variable repr : value -> string.

(** A computation: it may raise, and it changes the state. *)
Definition M (A : Type) : Type :=
  state W client -> result A * state W client.

Definition ret {A : Type} (a : A) : M A := fun st => (Ok a, st).

Definition raise {A : Type} (e : exn) : M A := fun st => (Raise e, st).

Definition bind {A B : Type} (m : M A) (k : A -> M B) : M B :=
  fun st =>
    match m st with
    | (Ok a, st') => k a st'
    | (Raise e, st') => (Raise e, st')
    end.

Definition lift {A : Type} (r : result A) : M A := fun st => (r, st).

(** [try: body / except Exception as e: handler e] *)
Definition try_except {A : Type} (body : M A) (handler : exn -> M A) : M A :=
  fun st =>
    match body st with
    | (Ok a, st') => (Ok a, st')
    | (Raise e, st') => handler e st'
    end.

(** [try: body / except AttributeError: handler] *)
Definition try_except_AttributeError {A : Type} (body : M A) (handler : M A)
  : M A :=
  fun st =>
    match body st with
    | (Ok a, st') => (Ok a, st')
    | (Raise e, st') =>
        if is_AttributeError e then handler st' else (Raise e, st')
    end.

Definition emit (ev : event) : M unit :=
  fun st =>
    (Ok tt, {| world := world st; instance := instance st;
               trace := (trace st ++ [ev])%list |}).

(** A call of a collaborator. *)
Definition outside {A : Type} (f : W -> result A * W) : M A :=
  fun st =>
    let (r, w) := f (world st) in
    (r, {| world := w; instance := instance st; trace := trace st |}).

Definition set_instance (c : client) : M unit :=
  fun st =>
    (Ok tt, {| world := world st; instance := Some c; trace := trace st |}).

Notation "x <- m ;; k" := (bind m (fun x => k))
  (at level 61, m at next level, right associativity).
Notation "m ;; k" := (bind m (fun _ => k))
  (at level 61, right associativity).

(** [not key] for what [os.getenv] returns. *)
Definition key_missing (key : option string) : bool :=
  match key with
  | Some k => negb (PyStr.truthy k)
  | None => true
  end.

(** [LLMManager.get_instance] *)
Definition get_instance : M client :=
  fun st =>
    match instance st with
    | None =>
        if key_missing GROQ_API_KEY then raise config_error st
        else
          let api_key :=
            match GROQ_API_KEY with Some k => k | None => "" end in
          (emit (NewChatGroq api_key) ;;
           c <- outside (ChatGroq svc api_key) ;;
           set_instance c ;;
           ret c) st
    | Some c => ret c st
    end.

(** [search_articles]: a list of links, or [None]. *)
Definition search_articles (query : value) (api_key : option string)
  : M value :=
  emit (CallSearch query api_key) ;;
  try_except
    (let payload := VDict [("q", query)] in
     emit (HttpPost api_key payload) ;;
     response <- outside (requests_post svc api_key payload) ;;
     if (status_code response =? 200)%Z then
       data <- lift (json response) ;;
       has_organic <- lift (Py.contains "organic" data) ;;
       if has_organic : bool then
         organic <- lift (Py.getitem data "organic") ;;
         results <- lift (Py.iter organic) ;;
         urls <- lift (links results) ;;
         ret (VList (firstn 3 urls))
       else
         ret VNone
     else
       ret (VList []))
    (fun _ => ret (VList [])).

(** [fetch_article_content] *)
Definition fetch_article_content (url : value) : M string :=
  emit (CallFetch url) ;;
  try_except
    (emit (HttpGet url) ;;
     response <- outside (requests_get svc url) ;;
     lift (raise_for_status response) ;;
     soup <- lift (html response) ;;
     let content := page_text soup in
     outside (print svc (PyStr.slice_to content_limit content)) ;;
     outside (print svc dashes) ;;
     ret (PyStr.slice_to content_limit content))
    (fun _ => ret "").

(** An f-string field: a string as it is, anything else by its [repr]. *)
Definition format (v : value) : string :=
  match v with
  | VStr s => s
  | _ => repr v
  end.

Definition user_message (content : string) (query : value) : string :=
  "Based on the following articles, please answer this question: "
    ++ format query ++ PyStr.nl ++ PyStr.nl
    ++ "        Articles:" ++ PyStr.nl
    ++ "        " ++ content ++ PyStr.nl ++ PyStr.nl
    ++ "        Please provide a clear, concise answer based on the information in the articles above."
    ++ PyStr.nl
    ++ "        If the information is not directly available in the articles, please say so.".

(** [response.attr if hasattr(response, attr) else str(response)] *)
Definition attr_or_str (attr : Reply -> option value) (response : Reply)
  : value :=
  match attr response with
  | Some v => v
  | None => VStr (as_str response)
  end.

(** [generate_answer] *)
Definition generate_answer (content : string) (query : value) : M value :=
  emit (CallGenerate content query) ;;
  try_except
    (llm <- get_instance ;;
     let user := user_message content query in
     let messages :=
       [ {| role := "system"; msg_content := system_message |};
         {| role := "user"; msg_content := user |} ] in
     try_except_AttributeError
       (emit (LlmInvoke messages) ;;
        response <- outside (llm_invoke svc llm messages) ;;
        ret (attr_or_str reply_content response))
       (try_except_AttributeError
          (emit (LlmComplete user) ;;
           response <- outside (llm_complete svc llm user) ;;
           ret (attr_or_str reply_text response))
          (try_except
             (emit (LlmPredict user) ;;
              response <- outside (llm_predict svc llm user) ;;
              ret (VStr (as_str response)))
             (fun _ => ret (VStr fallback_answer)))))
    (fun _ => ret (VStr fallback_answer)).

(** The [for url in article_urls] loop of the handler; [article_content] is
    the list it appends to. *)
Fixpoint fetch_loop (urls : list value) (article_content : list Article)
  : M (list Article) :=
  match urls with
  | [] => ret article_content
  | u :: rest =>
      article_content' <-
        try_except
          (text <- fetch_article_content u ;;
           if PyStr.truthy text
           then ret (article_content ++ [{| url := u; content := text |}])%list
           else ret article_content)
          (fun _ => ret article_content) ;;
      fetch_loop rest article_content'
  end.

(** The handler of [POST /query]; [get_json] is what [request.get_json()]
    does on this request. *)
Definition query (get_json : result value) : M HttpReply :=
  try_except
    (data <- lift get_json ;;
     no_query <-
       (if negb (Py.truthy data) then ret true
        else has <- lift (Py.contains "query" data) ;; ret (negb has)) ;;
     if no_query : bool then
       ret (error_reply "No query provided" 400)
     else
       query_text <- lift (Py.getitem data "query") ;;
       article_urls <- search_articles query_text API_KEY ;;
       if negb (Py.truthy article_urls) then
         ret (error_reply "No articles found" 404)
       else
         urls <- lift (Py.iter article_urls) ;;
         article_content <- fetch_loop urls [] ;;
         match article_content with
         | [] => ret (error_reply "Could not fetch any article content" 404)
         | _ =>
             let combined_content := concatenate_content article_content in
             answer <- generate_answer combined_content query_text ;;
             ret {| body := VDict [("answer", answer);
                                   ("sources", VList (map url article_content))];
                    status := 200 |}
         end)
    (fun e => ret (error_reply ("Internal server error: " ++ exn_str e) 500)).

(** The state a request starts from, with an empty trace. *)
Definition start (w : W) (inst : option client) : state W client :=
  {| world := w; instance := inst; trace := [] |}.

End Service.

(** ** Notions the properties are stated with *)

(** The blocks of the aggregated document as the specification words them:
    the article at 1-based position N gives ["Article {N}:\n{content}\n\n"]. *)
Definition numbered_blocks (articles : list Article) : list string :=
  map (fun p => article_block (fst p) (content (snd p)))
      (combine (seq 1 (List.length articles)) articles).

(** The page once the unwanted elements are taken out, and the trimmed text
    of each of its paragraphs. *)
Definition cleaned (page : node) : node := Soup.decompose_all unwanted page.

Definition paragraph_texts (page : node) : list string :=
  map (fun p => PyStr.strip (Soup.get_text p)) (Soup.find_all ["p"] page).

(** The content as the specification words it: the trimmed paragraph texts,
    the empty ones skipped, joined by single spaces, cut to 5000 characters. *)
Definition described_content (page : node) : string :=
  PyStr.slice_to content_limit
    (PyStr.join " " (filter PyStr.truthy (paragraph_texts (cleaned page)))).

(** Two pages that differ only in their unwanted elements: those may be
    present in one and absent from the other, or have other contents. *)
Inductive same_outside : node -> node -> Prop :=
| so_text s : same_outside (Text s) (Text s)
| so_comment s : same_outside (Comment s) (Comment s)
| so_tag t kids kids' :
    same_kids kids kids' -> same_outside (Tag t kids) (Tag t kids')
with same_kids : list node -> list node -> Prop :=
| sk_nil : same_kids [] []
| sk_both n n' kids kids' :
    same_outside n n' -> same_kids kids kids' ->
    same_kids (n :: kids) (n' :: kids')
| sk_left n kids kids' :
    Soup.named unwanted n = true -> same_kids kids kids' ->
    same_kids (n :: kids) kids'
| sk_right n' kids kids' :
    Soup.named unwanted n' = true -> same_kids kids kids' ->
    same_kids kids (n' :: kids').

Scheme same_outside_mut := Minimality for same_outside Sort Prop
  with same_kids_mut := Minimality for same_kids Sort Prop.

(** [l1] is [l2] with some elements left out, the order kept. *)
Inductive Subsequence {A : Type} : list A -> list A -> Prop :=
| sub_nil : Subsequence [] []
| sub_keep x l1 l2 : Subsequence l1 l2 -> Subsequence (x :: l1) (x :: l2)
| sub_skip x l1 l2 : Subsequence l1 l2 -> Subsequence l1 (x :: l2).

Section Runs.

Variables W client : Type.
Variable svc : Services W client.

(** The state [search_articles] leaves: the world as the POST left it, two
    more events in the trace. *)
Definition searched (query : value) (api_key : option string)
    (st : state W client) : state W client :=
  {| world := snd (requests_post svc api_key (VDict [("q", query)]) (world st));
     instance := instance st;
     trace := (trace st ++ [CallSearch query api_key;
                            HttpPost api_key (VDict [("q", query)])])%list |}.

(** The state once [generate_answer] has been entered. *)
Definition entered (content : string) (query : value)
    (st : state W client) : state W client :=
  {| world := world st; instance := instance st;
     trace := (trace st ++ [CallGenerate content query])%list |}.

(** The text [fetch_article_content] returns for [u] in the world [w], and
    the world it leaves. *)
Definition fetched (u : value) (w : W) : string * W :=
  match fetch_article_content svc u (start w (@None client)) with
  | (Ok text, st) => (text, world st)
  | (Raise _, st) => ("", world st)
  end.

(** The texts of the fetches of [urls], one after the other. *)
Fixpoint fetched_texts (urls : list value) (w : W) : list string :=
  match urls with
  | [] => []
  | u :: rest =>
      let (text, w') := fetched u w in text :: fetched_texts rest w'
  end.

(** The world after the fetches of [urls]. *)
Fixpoint world_after_fetches (urls : list value) (w : W) : W :=
  match urls with
  | [] => w
  | u :: rest => world_after_fetches rest (snd (fetched u w))
  end.

(** The state after the fetches of [urls]. *)
Definition fetched_all (urls : list value) (st : state W client)
  : state W client :=
  {| world := world_after_fetches urls (world st);
     instance := instance st;
     trace := (trace st
               ++ flat_map (fun u => [CallFetch u; HttpGet u]) urls)%list |}.

(** Search yields no URLs: [None] or the empty list. *)
Definition no_urls (found : result value * state W client) : bool :=
  match fst found with
  | Ok v => negb (Py.truthy v)
  | Raise _ => false
  end.

(** Every fetch of the URLs that search yields gives empty content. *)
Definition no_content (found : result value * state W client) : bool :=
  match fst found with
  | Ok (VList urls) =>
      forallb (fun text => negb (PyStr.truthy text))
              (fetched_texts urls (world (snd found)))
  | _ => false
  end.

End Runs.

(** The articles kept from the fetches: the URLs with a non-empty text. *)
Fixpoint kept (urls : list value) (texts : list string) : list Article :=
  match urls, texts with
  | u :: urls', t :: texts' =>
      if PyStr.truthy t
      then {| url := u; content := t |} :: kept urls' texts'
      else kept urls' texts'
  | _, _ => []
  end.

(** The link field of an entry of the organic results, when the entry is an
    object that has one. *)
Definition entry_link (entry : value) : list value :=
  match entry with
  | VDict d =>
      match Py.lookup "link" d with
      | Some l => [l]
      | None => []
      end
  | _ => []
  end.

Definition is_dict (v : value) : bool :=
  match v with VDict _ => true | _ => false end.

(** The events of a fetch and of a synthesis. *)
Definition is_fetch_event (ev : event) : bool :=
  match ev with
  | CallFetch _ | HttpGet _ => true
  | _ => false
  end.

Definition is_generate_event (ev : event) : bool :=
  match ev with
  | CallGenerate _ _ | NewChatGroq _ | LlmInvoke _ | LlmComplete _
  | LlmPredict _ => true
  | _ => false
  end.

(** The query a request carries: the body is an object with a ['query']
    key. *)
Definition provided_query (get_json : result value) : option value :=
  match get_json with
  | Ok (VDict d) => Py.lookup "query" d
  | _ => None
  end.

(** What the chain of [generate_answer] answers, from the outcomes of
    [invoke], [complete] and [predict]: the first method that returns decides;
    the next one is tried only after an [AttributeError]. *)
Definition chain_answer (r_invoke r_complete r_predict : result Reply) : value :=
  match r_invoke with
  | Ok r => attr_or_str reply_content r
  | Raise e1 =>
      if is_AttributeError e1 then
        match r_complete with
        | Ok r => attr_or_str reply_text r
        | Raise e2 =>
            if is_AttributeError e2 then
              match r_predict with
              | Ok r => VStr (as_str r)
              | Raise _ => VStr fallback_answer
              end
            else VStr fallback_answer
        end
      else VStr fallback_answer
  end.

(** ** What a request costs *)

Definition is_post (ev : event) : bool :=
  match ev with HttpPost _ _ => true | _ => false end.

Definition is_get (ev : event) : bool :=
  match ev with HttpGet _ => true | _ => false end.

Definition is_construction (ev : event) : bool :=
  match ev with NewChatGroq _ => true | _ => false end.

Definition is_model_call (ev : event) : bool :=
  match ev with
  | LlmInvoke _ | LlmComplete _ | LlmPredict _ => true
  | _ => false
  end.

(** How many events of a kind a trace holds. *)
Definition count (kind : event -> bool) (evs : list event) : nat :=
  List.length (filter kind evs).

(** A value that is no container: [x in v] raises on it. *)
Definition scalar (v : value) : bool :=
  match v with
  | VNone | VBool _ | VNum _ => true
  | _ => false
  end.

(** The search provider failed: the POST raised, or the status is not 200,
    or the body of the 200 response is not JSON. *)
Definition search_failed (r : result Response) : bool :=
  match r with
  | Raise _ => true
  | Ok response =>
      negb (status_code response =? 200)%Z
      || match json response with Raise _ => true | Ok _ => false end
  end.

(** The fetch of a page failed before anything was read from it: the GET
    raised, or the status is an error, or the page could not be parsed. *)
Definition fetch_failed (r : result Response) : bool :=
  match r with
  | Raise _ => true
  | Ok response =>
      match raise_for_status response, html response with
      | Ok _, Ok _ => false
      | _, _ => true
      end
  end.

(** An outcome that is an [AttributeError]. *)
Definition raised_AttributeError {A : Type} (r : result A) : bool :=
  match r with
  | Raise e => is_AttributeError e
  | Ok _ => false
  end.

(** The requests [generate_answer] sends to the model after [invoke], from
    the outcomes of [invoke] and [complete]. *)
Definition later_calls (user : string) (r_invoke r_complete : result Reply)
  : list event :=
  if raised_AttributeError r_invoke then
    LlmComplete user
      :: (if raised_AttributeError r_complete then [LlmPredict user] else [])
  else [].

(** The documents handed to [generate_answer] in a trace. *)
Definition documents (evs : list event) : list string :=
  flat_map (fun ev => match ev with
                      | CallGenerate doc _ => [doc]
                      | _ => []
                      end) evs.

(** ** A small world to run the service in *)

Module Demo.

(** A page about wireless charging: a script in the head, a navigation
    bar, three paragraphs (one blank, one with a script inside), a footer. *)
Definition page_a : node :=
  Tag "[document]"
    [Tag "html"
       [Tag "head" [Tag "script" [Text "var hits = 0;"]];
        Tag "body"
          [Tag "nav" [Tag "p" [Text "Home"]];
           Tag "p" [Text "  Qi pads charge at 15 W. "];
           Tag "p" [Text "   "];
           Tag "p" [Text "Range is short"; Tag "script" [Text "track()"];
                    Tag "b" [Text " today"]];
           Tag "footer" [Tag "p" [Text "Imprint"]]]]].

(** The same article served with another script, navigation and footer. *)
Definition page_a' : node :=
  Tag "[document]"
    [Tag "html"
       [Tag "head" [];
        Tag "body"
          [Tag "p" [Text "  Qi pads charge at 15 W. "];
           Tag "header" [Text "Breaking"];
           Tag "p" [Text "   "];
           Tag "p" [Text "Range is short"; Tag "b" [Text " today"];
                    Tag "style" [Text "b { color: red }"]]]]].

Definition page_c : node :=
  Tag "[document]" [Tag "p" [Text "Cars charge on pads."]].

Definition timeout : exn :=
  {| exn_cls := OtherError "ReadTimeout"; exn_str := "Read timed out." |}.

Definition page (soup : node) : Response :=
  {| status_code := 200;
     json := Raise {| exn_cls := OtherError "JSONDecodeError";
                      exn_str := "Expecting value" |};
     html := Ok soup |}.

Definition found (data : value) : Response :=
  {| status_code := 200; json := Ok data; html := Ok (Tag "[document]" []) |}.

(** Five organic results, one of them without a link. *)
Definition organic : value :=
  VDict [("searchParameters", VDict [("q", VStr "wireless charging")]);
         ("organic",
          VList [VDict [("title", VStr "A"); ("link", VStr "https://a.com")];
                 VDict [("title", VStr "no link")];
                 VDict [("link", VStr "https://b.com")];
                 VDict [("link", VStr "https://c.com")];
                 VDict [("link", VStr "https://d.com")]])].

Definition get (u : value) : result Response :=
  match u with
  | VStr "https://a.com" => Ok (page page_a)
  | VStr "https://c.com" => Ok (page page_c)
  | VStr "https://gone.com" =>
      Ok {| status_code := 404; json := Ok VNone; html := Ok page_c |}
  | _ => Raise timeout
  end.

Definition unsupported : exn :=
  {| exn_cls := AttributeError;
     exn_str := "'ChatGroq' object has no attribute 'complete'" |}.

Definition said (text : string) : Reply :=
  {| reply_content := Some (VStr text); reply_text := None;
     as_str := "content='" ++ text ++ "'" |}.

(** The world counts the requests it has served.  [search] is what the
    search provider answers and [model] what [invoke] does; the client has
    no [complete], and [predict] is out of service. *)
Definition services (search : result Response) (model : result Reply)
  : Services nat unit :=
  {| requests_post := fun _ _ w => (search, S w);
     requests_get := fun u w => (get u, S w);
     print := fun _ w => (Ok tt, w);
     ChatGroq := fun _ w => (Ok tt, w);
     llm_invoke := fun _ _ w => (model, S w);
     llm_complete := fun _ _ w => (Raise unsupported, w);
     llm_predict := fun _ _ w => (Raise timeout, S w) |}.

(** Results that cannot be fetched: a page that is gone, a site that
    does not answer. *)
Definition dead_links : value :=
  VDict [("organic",
          VList [VDict [("link", VStr "https://gone.com")];
                 VDict [("link", VStr "https://b.com")]])].

(** Organic results with an entry that is a number. *)
Definition spoiled : value :=
  VDict [("organic",
          VList [VDict [("link", VStr "https://a.com")];
                 VNum 7;
                 VDict [("link", VStr "https://c.com")]])].

(** A 200 body without organic results. *)
Definition no_organic : value :=
  VDict [("searchParameters", VDict [("q", VStr "zzzz")]);
         ("credits", VNum 1)].

(** The same world with a standard output that refuses what is written. *)
Definition mute (svc : Services nat unit) : Services nat unit :=
  {| requests_post := requests_post svc;
     requests_get := requests_get svc;
     print := fun _ w =>
       (Raise {| exn_cls := OtherError "UnicodeEncodeError";
                 exn_str := "'charmap' codec can't encode character" |}, w);
     ChatGroq := ChatGroq svc;
     llm_invoke := llm_invoke svc;
     llm_complete := llm_complete svc;
     llm_predict := llm_predict svc |}.

Definition happy : Services nat unit :=
  services (Ok (found organic)) (Ok (said "Up to 15 W.")).

Definition repr (v : value) : string := "<value>".

Definition article_a : Article :=
  {| url := VStr "https://a.com";
     content := "Qi pads charge at 15 W. Range is short today" |}.

Definition article_c : Article :=
  {| url := VStr "https://c.com"; content := "Cars charge on pads." |}.

End Demo.

(** * Properties *)

(** ** Strings *)

Lemma slice_to_length (n : nat) (s : string) :
  String.length (PyStr.slice_to n s) <= n.
Proof.
  revert n; induction s as [|c s IH]; intros [|n]; simpl; try lia.
  specialize (IH n); lia.
Qed.

Lemma slice_to_short (n : nat) (s : string) :
  String.length s <= n -> PyStr.slice_to n s = s.
Proof.
  revert n; induction s as [|c s IH]; intros [|n]; simpl; intros H;
    try reflexivity; try lia.
  f_equal; apply IH; lia.
Qed.

Lemma join_cons (sep p q : string) (rest : list string) :
  PyStr.join sep (p :: q :: rest) = p ++ sep ++ PyStr.join sep (q :: rest).
Proof. reflexivity. Qed.

(** ** concatenate_content *)

Lemma concatenate_loop_blocks (articles : list Article) :
  forall idx acc,
    concatenate_loop idx articles acc =
    (acc ++ map (fun p => article_block (fst p) (content (snd p)))
                (combine (seq idx (List.length articles)) articles))%list.
Proof.
  induction articles as [|a rest IH]; intros idx acc; simpl.
  - now rewrite app_nil_r.
  - rewrite IH, <- app_assoc. reflexivity.
Qed.

Lemma nth_error_numbered (A : Type) (g : nat * A -> string) (l : list A) :
  forall k i,
    nth_error (map g (combine (seq k (List.length l)) l)) i =
    option_map (fun a => g (k + i, a)) (nth_error l i).
Proof.
  induction l as [|a l IH]; intros k [|i]; simpl; try reflexivity.
  - now rewrite Nat.add_0_r.
  - rewrite IH. now rewrite Nat.add_succ_r.
Qed.

Lemma concatenate_loop_contents (l1 : list Article) :
  forall l2 idx acc,
    map content l1 = map content l2 ->
    concatenate_loop idx l1 acc = concatenate_loop idx l2 acc.
Proof.
  induction l1 as [|a l1 IH]; intros [|b l2] idx acc H; simpl in *;
    try discriminate; try reflexivity.
  injection H as Hab Hrest. rewrite Hab. now apply IH.
Qed.

Example article_block_12 :
  article_block 12 "text" = "Article 12:
text

".
Proof. reflexivity. Qed.

(** The aggregated document of the end-to-end scenario of the
    specification. *)
Example concatenate_two :
  concatenate_content [Demo.article_a; Demo.article_c] =
  "Article 1:
Qi pads charge at 15 W. Range is short today


Article 2:
Cars charge on pads.

".
Proof. reflexivity. Qed.

(** C6.  For every ordered list of articles, [concatenate_content] is the
    join, with one newline as separator, of one block per article, in the
    order of the input; the block at 1-based position N is
    ["Article {N}:\n{content}\n\n"]; the empty list gives the empty string;
    and equal inputs give equal outputs. *)
Theorem concatenate_content_blocks (articles : list Article) :
  concatenate_content articles = PyStr.join PyStr.nl (numbered_blocks articles)
  /\ List.length (numbered_blocks articles) = List.length articles
  /\ (forall i,
        nth_error (numbered_blocks articles) i =
        option_map (fun a => "Article " ++ PyStr.str_of_nat (S i) ++ ":"
                             ++ PyStr.nl ++ content a ++ PyStr.nl ++ PyStr.nl)
                   (nth_error articles i))
  /\ concatenate_content [] = ""
  /\ (forall articles',
        articles' = articles ->
        concatenate_content articles' = concatenate_content articles).
Proof.
  repeat split.
  - unfold concatenate_content. now rewrite concatenate_loop_blocks.
  - unfold numbered_blocks.
    rewrite length_map, length_combine, length_seq. apply Nat.min_id.
  - intros i. unfold numbered_blocks.
    rewrite nth_error_numbered. reflexivity.
  - intros articles' ->. reflexivity.
Qed.

Lemma concatenate_content_blocks_witness :
  concatenate_content [Demo.article_a; Demo.article_c] =
  concatenate_content [Demo.article_a; Demo.article_c].
Proof.
  apply (proj2 (proj2 (proj2 (proj2
           (concatenate_content_blocks [Demo.article_a; Demo.article_c]))))).
  reflexivity.
Defined.

(** C10.  The aggregated document depends on the contents of the articles
    and on their order only: two lists of articles with the same sequence of
    contents give the same document, whatever their URLs. *)
Theorem concatenate_content_ignores_urls (l1 l2 : list Article) :
  map content l1 = map content l2 ->
  concatenate_content l1 = concatenate_content l2.
Proof.
  intros H. unfold concatenate_content.
  now rewrite (concatenate_loop_contents l1 l2 1 [] H).
Qed.

Lemma concatenate_content_ignores_urls_witness :
  concatenate_content
    [{| url := VStr "https://a.com"; content := "first" |};
     {| url := VStr "https://b.com"; content := "second" |}] =
  concatenate_content
    [{| url := VStr "https://mirror.org/1"; content := "first" |};
     {| url := VNone; content := "second" |}].
Proof.
  apply concatenate_content_ignores_urls. reflexivity.
Defined.

(** ** The parsed page *)

Lemma node_induction (P : node -> Prop) :
  (forall s, P (Text s)) ->
  (forall s, P (Comment s)) ->
  (forall t kids, Forall P kids -> P (Tag t kids)) ->
  forall n, P n.
Proof.
  intros HText HComment HTag. fix IH 1. intros [s|s|t kids].
  - apply HText.
  - apply HComment.
  - apply HTag. induction kids as [|k kids IHkids]; constructor.
    + apply IH.
    + apply IHkids.
Qed.

Lemma named_decompose_all (names names' : list string) (n : node) :
  Soup.named names' (Soup.decompose_all names n) = Soup.named names' n.
Proof. destruct n; reflexivity. Qed.

(** No tag with one of the names is left below a page once they have been
    decomposed. *)
Lemma find_all_decompose_all (names : list string) (n : node) :
  Soup.find_all names (Soup.decompose_all names n) = [].
Proof.
  induction n as [s|s|t kids IH] using node_induction; try reflexivity.
  simpl. induction IH as [|k kids Hk _ IHkids]; simpl; [reflexivity|].
  destruct (Soup.named names k) eqn:Hnamed; simpl; [exact IHkids|].
  rewrite named_decompose_all, Hnamed, Hk, IHkids. reflexivity.
Qed.

(** Pages that differ only in their unwanted elements are the same page once
    these are decomposed. *)
Lemma same_outside_decompose_all (n n' : node) :
  same_outside n n' ->
  Soup.decompose_all unwanted n = Soup.decompose_all unwanted n'.
Proof.
  intros H.
  enough (Soup.decompose_all unwanted n = Soup.decompose_all unwanted n'
          /\ Soup.named unwanted n = Soup.named unwanted n') as [E _]
    by exact E.
  induction H using same_outside_mut
    with (P0 := fun kids kids' =>
            flat_map (fun k => if Soup.named unwanted k then []
                               else [Soup.decompose_all unwanted k]) kids =
            flat_map (fun k => if Soup.named unwanted k then []
                               else [Soup.decompose_all unwanted k]) kids').
  - split; reflexivity.
  - split; reflexivity.
  - split; [simpl; f_equal; assumption | reflexivity].
  - reflexivity.
  - destruct IHsame_outside as [E N]. simpl.
    rewrite N, E, IHsame_outside0. reflexivity.
  - simpl. rewrite H. exact IHsame_outside.
  - simpl. rewrite H. exact IHsame_outside.
Qed.

Lemma map_filter_comm (A B : Type) (f : A -> B) (g : B -> bool) (l : list A) :
  map f (filter (fun a => g (f a)) l) = filter g (map f l).
Proof.
  induction l as [|a l IH]; simpl; [reflexivity|].
  destruct (g (f a)); simpl; now rewrite IH.
Qed.

Lemma page_content_described (soup : node) :
  page_content soup = described_content soup.
Proof.
  unfold page_content, page_text, described_content, paragraph_texts, cleaned.
  now rewrite (map_filter_comm (fun p => PyStr.strip (Soup.get_text p))
                               PyStr.truthy).
Qed.

Lemma page_content_length (soup : node) :
  String.length (page_content soup) <= 5000.
Proof. apply slice_to_length. Qed.

Lemma page_content_same_outside (soup soup' : node) :
  same_outside soup soup' -> page_content soup = page_content soup'.
Proof.
  intros H. unfold page_content, page_text.
  now rewrite (same_outside_decompose_all H).
Qed.

(** The two servings of the same article differ only in unwanted elements. *)
Example demo_pages_same_outside : same_outside Demo.page_a Demo.page_a'.
Proof.
  unfold Demo.page_a, Demo.page_a'.
  repeat first
    [ apply so_text | apply so_comment | apply sk_nil
    | apply sk_left; [reflexivity|] | apply sk_right; [reflexivity|]
    | apply so_tag | apply sk_both ].
Qed.

(** A page is dropped when its text cannot be printed. *)
Example fetch_when_print_fails :
  fst (fetch_article_content (Demo.mute Demo.happy) (VStr "https://a.com")
         (start 0 (@None unit))) = Ok ""
  /\ fst (fetch_article_content Demo.happy (VStr "https://a.com")
            (start 0 (@None unit)))
     = Ok "Qi pads charge at 15 W. Range is short today".
Proof. split; reflexivity. Qed.

Example demo_page_content :
  page_content Demo.page_a = "Qi pads charge at 15 W. Range is short today".
Proof. reflexivity. Qed.

(** ** fetch_article_content *)

(** Unfolds the combinators of [M]. *)
Ltac unfold_M :=
  unfold bind, try_except, try_except_AttributeError, emit, outside,
    set_instance, lift, ret, raise.

Section Fetch.

Variables W client : Type.
Variable svc : Services W client.

(** [fetch_article_content] never raises; it leaves the world as the GET
    left it and adds its two events to the trace. *)
Lemma fetch_article_content_run (u : value) (st : state W client) :
  fetch_article_content svc u st =
  (Ok (fst (fetched svc u (world st))),
   {| world := snd (fetched svc u (world st));
      instance := instance st;
      trace := (trace st ++ [CallFetch u; HttpGet u])%list |}).
Proof.
  unfold fetched, fetch_article_content, start. unfold_M.
  cbn -[page_text PyStr.slice_to content_limit dashes].
  destruct (requests_get svc u (world st)) as [[response|e] w1];
    cbn -[page_text PyStr.slice_to content_limit dashes];
    [|rewrite <- app_assoc; reflexivity].
  destruct (raise_for_status response);
    cbn -[page_text PyStr.slice_to content_limit dashes];
    [|rewrite <- app_assoc; reflexivity].
  destruct (html response) as [soup|e];
    cbn -[page_text PyStr.slice_to content_limit dashes];
    [|rewrite <- app_assoc; reflexivity].
  destruct (print svc (PyStr.slice_to content_limit (page_text soup)) w1)
    as [[[]|e] w2];
    cbn -[page_text PyStr.slice_to content_limit dashes];
    [|rewrite <- app_assoc; reflexivity].
  destruct (print svc dashes w2) as [[[]|e] w3];
    cbn -[page_text PyStr.slice_to content_limit dashes];
    rewrite <- app_assoc; reflexivity.
Qed.

(** What [fetched] is, case by case. *)
Lemma fetched_cases (u : value) (w : W) :
  (exists response soup w1 w2,
      requests_get svc u w = (Ok response, w1)
      /\ raise_for_status response = Ok tt
      /\ html response = Ok soup
      /\ print svc (page_content soup) w1 = (Ok tt, w2)
      /\ print svc dashes w2 = (Ok tt, snd (fetched svc u w))
      /\ fst (fetched svc u w) = page_content soup)
  \/ fst (fetched svc u w) = "".
Proof.
  unfold fetched, fetch_article_content, start. unfold_M.
  cbn -[page_text PyStr.slice_to content_limit dashes].
  destruct (requests_get svc u w) as [[response|e] w1];
    cbn -[page_text PyStr.slice_to content_limit dashes]; [|right; reflexivity].
  destruct (raise_for_status response) as [[]|e] eqn:Hstatus;
    cbn -[page_text PyStr.slice_to content_limit dashes]; [|right; reflexivity].
  destruct (html response) as [soup|e] eqn:Hsoup;
    cbn -[page_text PyStr.slice_to content_limit dashes]; [|right; reflexivity].
  change (PyStr.slice_to content_limit (page_text soup))
    with (page_content soup).
  destruct (print svc (page_content soup) w1) as [[[]|e] w2] eqn:Hprint;
    cbn -[page_text PyStr.slice_to content_limit dashes]; [|right; reflexivity].
  destruct (print svc dashes w2) as [[[]|e] w3] eqn:Hline;
    cbn -[page_text PyStr.slice_to content_limit dashes]; [|right; reflexivity].
  left. exists response, soup, w1, w2.
  repeat split; assumption || reflexivity.
Qed.

Lemma fetched_success (u : value) (w w1 w2 w3 : W) (response : Response)
    (soup : node) :
  requests_get svc u w = (Ok response, w1) ->
  raise_for_status response = Ok tt ->
  html response = Ok soup ->
  print svc (page_content soup) w1 = (Ok tt, w2) ->
  print svc dashes w2 = (Ok tt, w3) ->
  fetched svc u w = (page_content soup, w3).
Proof.
  intros Hget Hstatus Hsoup Hprint Hline.
  unfold fetched, fetch_article_content, start. unfold_M.
  cbn -[page_text PyStr.slice_to content_limit dashes].
  rewrite Hget. cbn -[page_text PyStr.slice_to content_limit dashes].
  rewrite Hstatus. cbn -[page_text PyStr.slice_to content_limit dashes].
  rewrite Hsoup. cbn -[page_text PyStr.slice_to content_limit dashes].
  change (PyStr.slice_to content_limit (page_text soup))
    with (page_content soup). rewrite Hprint.
  cbn -[page_text PyStr.slice_to content_limit dashes]. rewrite Hline. reflexivity.
Qed.

(** C4.  For every URL, [fetch_article_content] returns (it never raises) a
    string of at most 5000 characters, which is empty or the content of the
    page that was served.  When the fetch succeeds (the GET, the status
    check, the parse and the two prints), the result is the content as the
    specification words it: the trimmed texts of the paragraphs of the page
    without its [script], [style], [nav], [header] and [footer] elements,
    the empty ones skipped, joined by single spaces, then cut to 5000
    characters.  None of these elements is left in the page the text is
    taken from, and a page that differs only in such elements gives the same
    content. *)
Theorem fetch_article_content_bounded_clean (u : value) (st : state W client) :
  exists text w',
    fetch_article_content svc u st =
      (Ok text,
       {| world := w'; instance := instance st;
          trace := (trace st ++ [CallFetch u; HttpGet u])%list |})
    /\ String.length text <= 5000
    /\ (text = ""
        \/ exists response soup w1,
             requests_get svc u (world st) = (Ok response, w1)
             /\ html response = Ok soup
             /\ text = described_content soup)
    /\ (forall response soup w1 w2 w3,
          requests_get svc u (world st) = (Ok response, w1) ->
          raise_for_status response = Ok tt ->
          html response = Ok soup ->
          print svc (described_content soup) w1 = (Ok tt, w2) ->
          print svc dashes w2 = (Ok tt, w3) ->
          text = described_content soup
          /\ w' = w3
          /\ Soup.find_all unwanted (cleaned soup) = []
          /\ forall soup', same_outside soup soup' ->
                           text = described_content soup').
Proof.
  exists (fst (fetched svc u (world st))), (snd (fetched svc u (world st))).
  split; [apply fetch_article_content_run|].
  split.
  { destruct (fetched_cases u (world st))
      as [(response & soup & w1 & w2 & _ & _ & _ & _ & _ & ->)| ->].
    - apply page_content_length.
    - simpl; lia. }
  split.
  { destruct (fetched_cases u (world st))
      as [(response & soup & w1 & w2 & Hget & _ & Hsoup & _ & _ & Htext)|Htext].
    - right. exists response, soup, w1.
      rewrite Htext, page_content_described. auto.
    - left. exact Htext. }
  intros response soup w1 w2 w3 Hget Hstatus Hsoup Hprint Hline.
  rewrite <- page_content_described in Hprint.
  erewrite fetched_success by eassumption. simpl.
  split; [apply page_content_described|].
  split; [reflexivity|].
  split; [apply find_all_decompose_all|].
  intros soup' Hsame.
  rewrite (page_content_same_outside Hsame).
  apply page_content_described.
Qed.

End Fetch.

Lemma fetch_article_content_bounded_clean_witness :
  exists text,
    fst (fetch_article_content Demo.happy (VStr "https://a.com")
           (start 0 (@None unit))) = Ok text
    /\ text = described_content Demo.page_a'
    /\ String.length text <= 5000.
Proof.
  destruct (fetch_article_content_bounded_clean Demo.happy
              (VStr "https://a.com") (start 0 (@None unit)))
    as (text & w' & Hrun & Hlength & _ & Hsuccess).
  exists text. split; [rewrite Hrun; reflexivity|].
  split; [|exact Hlength].
  apply (Hsuccess (Demo.page Demo.page_a) Demo.page_a 1 1 1);
    try reflexivity.
  apply demo_pages_same_outside.
Defined.

(** ** search_articles *)

Section Search.

Variables W client : Type.
Variable svc : Services W client.

(** [search_articles] never raises, and returns [None] or a list of at most
    three values. *)
Lemma search_articles_run (q : value) (k : option string)
    (st : state W client) :
  exists v,
    search_articles svc q k st = (Ok v, searched svc q k st)
    /\ (v = VNone \/ exists l, v = VList l /\ List.length l <= 3).
Proof.
  unfold search_articles, searched. unfold_M. cbn -[firstn].
  destruct (requests_post svc k (VDict [("q", q)]) (world st))
    as [[response|e] w']; simpl; rewrite <- app_assoc; simpl.
  - destruct (status_code response =? 200)%Z; simpl.
    + destruct (json response) as [data|e]; simpl.
      * destruct (Py.contains "organic" data) as [[|]|e]; simpl.
        -- destruct (Py.getitem data "organic") as [organic|e]; simpl.
           ++ destruct (Py.iter organic) as [results|e]; simpl.
              ** destruct (links results) as [urls|e]; simpl.
                 --- eexists; split; [reflexivity|]. right.
                     eexists; split; [reflexivity|].
                     apply (firstn_le_length 3 urls).
                 --- eexists; split; [reflexivity|]. right.
                     exists []; simpl; split; [reflexivity|lia].
              ** eexists; split; [reflexivity|]. right.
                 exists []; simpl; split; [reflexivity|lia].
           ++ eexists; split; [reflexivity|]. right.
              exists []; simpl; split; [reflexivity|lia].
        -- eexists; split; [reflexivity|]. left; reflexivity.
        -- eexists; split; [reflexivity|]. right.
           exists []; simpl; split; [reflexivity|lia].
      * eexists; split; [reflexivity|]. right.
        exists []; simpl; split; [reflexivity|lia].
    + eexists; split; [reflexivity|]. right.
      exists []; simpl; split; [reflexivity|lia].
  - eexists; split; [reflexivity|]. right.
    exists []; simpl; split; [reflexivity|lia].
Qed.

Lemma links_of_dicts (entries : list value) :
  forallb is_dict entries = true ->
  links entries = Ok (flat_map entry_link entries).
Proof.
  induction entries as [|entry entries IH]; simpl; [reflexivity|].
  intros H. apply andb_prop in H as [Hentry Hrest].
  destruct entry as [| | | | |d]; try discriminate. simpl.
  rewrite (IH Hrest).
  destruct (Py.lookup "link" d); reflexivity.
Qed.

(** A 200 response whose body is an object with an ['organic'] list of
    objects: the links of the entries that have one, in the order of the
    provider, cut to three. *)
Lemma search_articles_organic (q : value) (k : option string)
    (st : state W client) (response : Response) (w' : W)
    (d : list (string * value)) (entries : list value) :
  requests_post svc k (VDict [("q", q)]) (world st) = (Ok response, w') ->
  status_code response = 200%Z ->
  json response = Ok (VDict d) ->
  Py.lookup "organic" d = Some (VList entries) ->
  forallb is_dict entries = true ->
  search_articles svc q k st =
  (Ok (VList (firstn 3 (flat_map entry_link entries))), searched svc q k st).
Proof.
  intros Hpost Hstatus Hjson Horganic Hdicts.
  unfold search_articles, searched. unfold_M. cbn -[firstn].
  rewrite Hpost. simpl. rewrite Hstatus, Hjson. simpl.
  rewrite Horganic. simpl. rewrite (links_of_dicts _ Hdicts). simpl.
  rewrite <- app_assoc. reflexivity.
Qed.

(** Any other status gives the empty list. *)
Lemma search_articles_not_200 (q : value) (k : option string)
    (st : state W client) (response : Response) (w' : W) :
  requests_post svc k (VDict [("q", q)]) (world st) = (Ok response, w') ->
  status_code response <> 200%Z ->
  search_articles svc q k st = (Ok (VList []), searched svc q k st).
Proof.
  intros Hpost Hstatus.
  unfold search_articles, searched. unfold_M. cbn -[firstn].
  rewrite Hpost. simpl.
  destruct (Z.eqb_spec (status_code response) 200); [contradiction|].
  simpl. rewrite <- app_assoc. reflexivity.
Qed.

(** A failure of the transport gives the empty list. *)
Lemma search_articles_transport_failure (q : value) (k : option string)
    (st : state W client) (e : exn) (w' : W) :
  requests_post svc k (VDict [("q", q)]) (world st) = (Raise e, w') ->
  search_articles svc q k st = (Ok (VList []), searched svc q k st).
Proof.
  intros Hpost.
  unfold search_articles, searched. unfold_M. cbn -[firstn].
  rewrite Hpost. simpl. rewrite <- app_assoc. reflexivity.
Qed.

(** A 200 response whose body has no ['organic'] in it: the function falls
    off its end and returns [None]. *)
Lemma search_articles_no_organic (q : value) (k : option string)
    (st : state W client) (response : Response) (w' : W) (data : value) :
  requests_post svc k (VDict [("q", q)]) (world st) = (Ok response, w') ->
  status_code response = 200%Z ->
  json response = Ok data ->
  Py.contains "organic" data = Ok false ->
  search_articles svc q k st = (Ok VNone, searched svc q k st).
Proof.
  intros Hpost Hstatus Hjson Horganic.
  unfold search_articles, searched. unfold_M. cbn -[firstn Py.contains].
  rewrite Hpost. cbn -[firstn Py.contains]. rewrite Hstatus, Hjson.
  cbn -[firstn Py.contains]. rewrite Horganic. simpl.
  rewrite <- app_assoc. reflexivity.
Qed.

End Search.

(** The search of the end-to-end scenario: five organic results, four with
    a link, the first three returned. *)
Example search_articles_demo :
  fst (search_articles Demo.happy (VStr "wireless charging") (Some "key")
         (start 0 (@None unit))) =
  Ok (VList [VStr "https://a.com"; VStr "https://b.com"; VStr "https://c.com"]).
Proof. reflexivity. Qed.

(** C7, at a 200 response whose body has no ['organic'] key: the claim asks
    for a sequence of links (here the empty one), [search_articles] returns
    [None]. *)
Theorem search_articles_200_without_organic :
  fst (search_articles
         (Demo.services
            (Ok (Demo.found Demo.no_organic)) (Ok (Demo.said "")))
         (VStr "zzzz") (Some "key") (start 0 (@None unit))) = Ok VNone
  /\ Ok (A:=value) VNone <> Ok (VList []).
Proof. split; [reflexivity | discriminate]. Qed.

(** ** LLMManager.get_instance and generate_answer *)

Section Synthesis.

Variables W client : Type.
Variable svc : Services W client.
Variable GROQ_API_KEY : option string.
Variable system_message : string.
Variable repr : value -> string.

(** An instance that exists is returned as it is. *)
Lemma get_instance_reuses (st : state W client) (c : client) :
  instance st = Some c ->
  get_instance svc GROQ_API_KEY st = (Ok c, st).
Proof. intros H. unfold get_instance. now rewrite H. Qed.

(** While there is no instance and the credential is absent or empty,
    [get_instance] raises the [ValueError] "GROQ_API_KEY not found in
    environment variables", builds nothing and changes nothing, so that the
    next call raises again. *)
Lemma get_instance_missing_credential (st : state W client) :
  key_missing GROQ_API_KEY = true ->
  instance st = None ->
  get_instance svc GROQ_API_KEY st = (Raise config_error, st)
  /\ exn_cls config_error = ValueError
  /\ instance (snd (get_instance svc GROQ_API_KEY st)) = None
  /\ trace (snd (get_instance svc GROQ_API_KEY st)) = trace st.
Proof.
  intros Hkey Hinst.
  assert (get_instance svc GROQ_API_KEY st = (Raise config_error, st)) as E.
  { unfold get_instance. now rewrite Hinst, Hkey. }
  rewrite E. simpl. auto.
Qed.

(** The error of [get_instance] does not leave [generate_answer]: the
    answer is the fallback, and no request was sent to the model. *)
Lemma generate_answer_missing_credential (content : string) (q : value)
    (st : state W client) :
  key_missing GROQ_API_KEY = true ->
  instance st = None ->
  generate_answer svc GROQ_API_KEY system_message repr content q st =
  (Ok (VStr fallback_answer), entered content q st).
Proof.
  intros Hkey Hinst.
  unfold generate_answer. unfold_M. cbn -[get_instance user_message].
  fold (entered content q st).
  assert (get_instance svc GROQ_API_KEY (entered content q st) =
          (Raise config_error, entered content q st)) as ->.
  { unfold get_instance. simpl. now rewrite Hinst, Hkey. }
  reflexivity.
Qed.

(** The rows of [chain_answer] that end in the fallback. *)
Lemma chain_answer_failures :
  (forall e r2 r3,
      is_AttributeError e = false ->
      chain_answer (Raise e) r2 r3 = VStr fallback_answer)
  /\ (forall e1 e2 r3,
      is_AttributeError e1 = true -> is_AttributeError e2 = false ->
      chain_answer (Raise e1) (Raise e2) r3 = VStr fallback_answer)
  /\ (forall e1 e2 e3,
      is_AttributeError e1 = true -> is_AttributeError e2 = true ->
      chain_answer (Raise e1) (Raise e2) (Raise e3) = VStr fallback_answer).
Proof.
  repeat split; intros; simpl;
    repeat match goal with H : _ = _ |- _ => rewrite H end; reflexivity.
Qed.

(** C5.  [generate_answer] never raises: on every input it returns a value.
    When [get_instance] raises, the value is the literal fallback.
    Otherwise it is what the chain invoke, complete, predict answers, and
    the chain answers the literal fallback whenever a method raises
    something else than an [AttributeError], and when all three raise. *)
Theorem generate_answer_never_raises (content : string) (q : value)
    (st : state W client) :
  exists v st',
    generate_answer svc GROQ_API_KEY system_message repr content q st
      = (Ok v, st')
    /\ (forall e st1,
          get_instance svc GROQ_API_KEY (entered content q st) = (Raise e, st1) ->
          v = VStr "Sorry, I couldn't generate an answer at this time.")
    /\ (forall llm st1,
          get_instance svc GROQ_API_KEY (entered content q st) = (Ok llm, st1) ->
          let user := user_message repr content q in
          let messages :=
            [ {| role := "system"; msg_content := system_message |};
              {| role := "user"; msg_content := user |} ] in
          let (r1, w1) := llm_invoke svc llm messages (world st1) in
          let (r2, w2) := llm_complete svc llm user w1 in
          let (r3, _) := llm_predict svc llm user w2 in
          v = chain_answer r1 r2 r3
          /\ (forall e, r1 = Raise e -> is_AttributeError e = false ->
                        v = VStr fallback_answer)
          /\ (forall e1 e2, r1 = Raise e1 -> r2 = Raise e2 ->
                            is_AttributeError e1 = true ->
                            is_AttributeError e2 = false ->
                            v = VStr fallback_answer)
          /\ (forall e1 e2 e3, r1 = Raise e1 -> r2 = Raise e2 ->
                               r3 = Raise e3 ->
                               is_AttributeError e1 = true ->
                               is_AttributeError e2 = true ->
                               v = VStr fallback_answer)).
Proof.
  destruct chain_answer_failures as (Hrow1 & Hrow2 & Hrow3).
  unfold generate_answer. unfold_M. cbn -[get_instance user_message].
  fold (entered content q st).
  destruct (get_instance svc GROQ_API_KEY (entered content q st))
    as [[llm|e] st1] eqn:Hinst.
  2: { do 2 eexists. split; [reflexivity|].
       split; [reflexivity | discriminate]. }
  cbn -[user_message].
  destruct (llm_invoke svc llm _ (world st1)) as [[r1|e1] w1] eqn:H1;
    cbn -[user_message].
  { do 2 eexists. split; [reflexivity|]. split; [discriminate|].
    intros ? ? [= <- <-]. cbn -[user_message]. rewrite H1.
    destruct (llm_complete svc llm _ w1) as [r2 w2].
    destruct (llm_predict svc llm _ w2) as [r3 w3].
    repeat split; intros; discriminate. }
  destruct (is_AttributeError e1) eqn:A1; cbn -[user_message].
  2: { do 2 eexists. split; [reflexivity|]. split; [discriminate|].
       intros ? ? [= <- <-]. cbn -[user_message]. rewrite H1.
       destruct (llm_complete svc llm _ w1) as [r2 w2].
       destruct (llm_predict svc llm _ w2) as [r3 w3].
       rewrite (Hrow1 _ r2 r3 A1).
       repeat split; intros; reflexivity. }
  destruct (llm_complete svc llm _ w1) as [[r2|e2] w2] eqn:H2;
    cbn -[user_message].
  { do 2 eexists. split; [reflexivity|]. split; [discriminate|].
    intros ? ? [= <- <-]. cbn -[user_message]. rewrite H1, H2.
    destruct (llm_predict svc llm _ w2) as [r3 w3].
    simpl. rewrite A1.
    repeat split; intros; congruence. }
  destruct (is_AttributeError e2) eqn:A2; cbn -[user_message].
  2: { do 2 eexists. split; [reflexivity|]. split; [discriminate|].
       intros ? ? [= <- <-]. cbn -[user_message]. rewrite H1, H2.
       destruct (llm_predict svc llm _ w2) as [r3 w3].
       rewrite (Hrow2 _ _ r3 A1 A2).
       repeat split; intros; reflexivity. }
  destruct (llm_predict svc llm _ w2) as [[r3|e3] w3] eqn:H3;
    cbn -[user_message].
  { do 2 eexists. split; [reflexivity|]. split; [discriminate|].
    intros ? ? [= <- <-]. cbn -[user_message]. rewrite H1, H2, H3.
    simpl. rewrite A1, A2.
    repeat split; intros; congruence. }
  do 2 eexists. split; [reflexivity|]. split; [discriminate|].
  intros ? ? [= <- <-]. cbn -[user_message]. rewrite H1, H2, H3.
  rewrite (Hrow3 _ _ e3 A1 A2).
  repeat split; intros; reflexivity.
Qed.

End Synthesis.

Lemma get_instance_missing_credential_witness :
  get_instance Demo.happy None (start 0 None) =
  (Raise config_error, start 0 None).
Proof.
  apply (proj1 (get_instance_missing_credential Demo.happy None
                  (start 0 None) eq_refl eq_refl)).
Defined.

Lemma generate_answer_never_raises_witness :
  fst (generate_answer
         (Demo.services (Ok (Demo.found Demo.organic)) (Raise Demo.unsupported))
         (Some "key") "You are a summarizer." Demo.repr
         "Article 1: ..." (VStr "wireless charging") (start 0 None))
  = Ok (VStr fallback_answer).
Proof.
  destruct (generate_answer_never_raises
              (Demo.services (Ok (Demo.found Demo.organic))
                             (Raise Demo.unsupported))
              (Some "key") "You are a summarizer." Demo.repr
              "Article 1: ..." (VStr "wireless charging") (start 0 None))
    as (v & st' & Hrun & _ & Hchain).
  rewrite Hrun. simpl. f_equal.
  pose proof (Hchain tt _ eq_refl) as H. cbn in H.
  destruct H as (_ & _ & _ & Hall).
  apply (Hall Demo.unsupported Demo.unsupported Demo.timeout);
    reflexivity.
Defined.

(** ** The handler of /query *)

Lemma truthy_empty (text : string) : PyStr.truthy text = false <-> text = "".
Proof. destruct text; simpl; split; intros H; congruence. Qed.

Lemma kept_none (urls : list value) :
  forall texts,
    List.length texts = List.length urls ->
    (kept urls texts = [] <->
     forallb (fun text => negb (PyStr.truthy text)) texts = true).
Proof.
  induction urls as [|u urls IH]; intros [|t texts] Hlen; simpl in *;
    try discriminate.
  - split; auto.
  - injection Hlen as Hlen. destruct (PyStr.truthy t) eqn:Ht; simpl.
    + split; discriminate.
    + apply (IH texts Hlen).
Qed.

Lemma kept_some (urls : list value) :
  forall texts,
    List.length texts = List.length urls ->
    existsb PyStr.truthy texts = true ->
    kept urls texts <> [].
Proof.
  induction urls as [|u urls IH]; intros [|t texts] Hlen; simpl in *;
    try discriminate.
  injection Hlen as Hlen. destruct (PyStr.truthy t) eqn:Ht; simpl.
  - discriminate.
  - apply (IH texts Hlen).
Qed.

Lemma kept_sources (urls : list value) :
  forall texts,
    map url (kept urls texts) =
    map fst (filter (fun p => PyStr.truthy (snd p)) (combine urls texts)).
Proof.
  induction urls as [|u urls IH]; intros [|t texts]; simpl; try reflexivity.
  destruct (PyStr.truthy t); simpl; now rewrite IH.
Qed.

Lemma kept_subsequence (urls : list value) :
  forall texts, Subsequence (map url (kept urls texts)) urls.
Proof.
  induction urls as [|u urls IH]; intros texts; simpl.
  - destruct texts; constructor.
  - destruct texts as [|t texts].
    + simpl. constructor. pose proof (IH []) as H. destruct urls; exact H.
    + destruct (PyStr.truthy t); simpl; constructor; apply IH.
Qed.

Lemma kept_contents (urls : list value) :
  forall texts, Forall (fun a => PyStr.truthy (content a) = true)
                       (kept urls texts).
Proof.
  induction urls as [|u urls IH]; intros [|t texts]; simpl; auto.
  destruct (PyStr.truthy t) eqn:Ht; auto.
Qed.

Section Handler.

Variables W client : Type.
Variable svc : Services W client.
Variables GROQ_API_KEY API_KEY : option string.
Variable system_message : string.
Variable repr : value -> string.

Lemma fetched_texts_length (urls : list value) :
  forall w, List.length (fetched_texts svc urls w) = List.length urls.
Proof.
  induction urls as [|u urls IH]; intros w; simpl; [reflexivity|].
  destruct (fetched svc u w) as [text w']. simpl. now rewrite IH.
Qed.

(** The loop of the handler keeps the URLs whose fetch gave a text, in
    their order. *)
Lemma fetch_loop_run (urls : list value) :
  forall acc st,
    fetch_loop svc urls acc st =
    (Ok (acc ++ kept urls (fetched_texts svc urls (world st)))%list,
     fetched_all svc urls st).
Proof.
  induction urls as [|u urls IH]; intros acc st.
  - unfold fetched_all. simpl. unfold ret.
    rewrite !app_nil_r. destruct st; reflexivity.
  - cbn -[fetch_article_content]. unfold_M.
    rewrite fetch_article_content_run.
    destruct (fetched svc u (world st)) as [text w'] eqn:Hfetched.
    cbn -[fetch_article_content].
    destruct (PyStr.truthy text); rewrite IH; unfold fetched_all; simpl;
      rewrite Hfetched; simpl; rewrite <- ?app_assoc; reflexivity.
Qed.

Lemma fetch_events_not_generate (urls : list value) :
  existsb is_generate_event
    (flat_map (fun u => [CallFetch u; HttpGet u]) urls) = false.
Proof. induction urls as [|u urls IH]; simpl; auto. Qed.

Local Abbreviation handler := (query svc GROQ_API_KEY API_KEY system_message repr).
Local Abbreviation generate := (generate_answer svc GROQ_API_KEY system_message repr).

(** The first steps of the handler on an object that has a ['query'] key. *)
Ltac validate Hquery :=
  unfold query; unfold_M;
  cbn -[search_articles fetch_loop generate_answer concatenate_content
        Py.lookup kept fetched_texts fetched_all];
  rewrite Hquery;
  match goal with
  | |- context [match ?d with [] => false | _ :: _ => true end] =>
      destruct d; [discriminate Hquery|]
  end;
  cbn -[search_articles fetch_loop generate_answer concatenate_content
        kept fetched_texts fetched_all].

(** A body that is an object without a ['query'] key is refused, and
    nothing else happens. *)
Lemma query_missing_key_run (d : list (string * value))
    (st : state W client) :
  Py.lookup "query" d = None ->
  handler (Ok (VDict d)) st = (Ok (error_reply "No query provided" 400), st).
Proof.
  intros Hquery. unfold query. unfold_M. cbn -[Py.lookup].
  destruct d as [|kv d]; [reflexivity|].
  cbn -[Py.lookup]. rewrite Hquery. reflexivity.
Qed.

(** A request that carries no query is answered 400 or 500, and the state
    is left as it was. *)
Lemma query_not_provided (get_json : result value) (st : state W client) :
  provided_query get_json = None ->
  exists reply,
    handler get_json st = (Ok reply, st)
    /\ (status reply = 400%Z \/ status reply = 500%Z).
Proof.
  intros Hnone. destruct get_json as [data|e].
  2: { eexists; split; [reflexivity|]. right; reflexivity. }
  destruct data as [|b|z|s|l|d]; simpl in Hnone.
  - eexists; split; [reflexivity|]. left; reflexivity.
  - destruct b; eexists; (split; [reflexivity|]);
      [right | left]; reflexivity.
  - unfold query. unfold_M. simpl. destruct (z =? 0)%Z; simpl;
      eexists; (split; [reflexivity|]); [left | right]; reflexivity.
  - unfold query. unfold_M. cbn -[PyStr.contains].
    destruct s as [|c s]; cbn -[PyStr.contains].
    + eexists; split; [reflexivity|]. left; reflexivity.
    + destruct (PyStr.contains "query" (String c s)); simpl;
        eexists; (split; [reflexivity|]); [right | left]; reflexivity.
  - unfold query. unfold_M. simpl. destruct l as [|x l]; simpl.
    + eexists; split; [reflexivity|]. left; reflexivity.
    + destruct (Py.is_str "query" x || existsb (Py.is_str "query") l);
        simpl; eexists; (split; [reflexivity|]); [right | left];
        reflexivity.
  - rewrite query_missing_key_run by assumption.
    eexists; split; [reflexivity|]. left; reflexivity.
Qed.

(** Search gave nothing: 404, and the handler stops there. *)
Lemma query_no_urls (d : list (string * value)) (q v : value)
    (st st1 : state W client) :
  Py.lookup "query" d = Some q ->
  search_articles svc q API_KEY st = (Ok v, st1) ->
  Py.truthy v = false ->
  handler (Ok (VDict d)) st = (Ok (error_reply "No articles found" 404), st1).
Proof.
  intros Hquery Hsearch Hfalsy. validate Hquery.
  rewrite Hsearch. simpl. rewrite Hfalsy. reflexivity.
Qed.

(** Search gave URLs: the handler fetches them all, then stops with 404
    when nothing was kept, and otherwise answers with what
    [generate_answer] returns. *)
Lemma query_with_urls (d : list (string * value)) (q u : value)
    (urls : list value) (st st1 : state W client) :
  Py.lookup "query" d = Some q ->
  search_articles svc q API_KEY st = (Ok (VList (u :: urls)), st1) ->
  handler (Ok (VDict d)) st =
  match kept (u :: urls) (fetched_texts svc (u :: urls) (world st1)) with
  | [] =>
      (Ok (error_reply "Could not fetch any article content" 404),
       fetched_all svc (u :: urls) st1)
  | articles =>
      match generate (concatenate_content articles) q
                     (fetched_all svc (u :: urls) st1) with
      | (Ok answer, st3) =>
          (Ok {| body := VDict [("answer", answer);
                                ("sources", VList (map url articles))];
                 status := 200 |}, st3)
      | (Raise e, st3) =>
          (Ok (error_reply ("Internal server error: " ++ exn_str e) 500),
           st3)
      end
  end.
Proof.
  intros Hquery Hsearch. validate Hquery.
  rewrite Hsearch.
  cbn -[fetch_loop generate_answer concatenate_content fetched_texts kept
        fetched_all].
  rewrite fetch_loop_run.
  cbn -[fetch_loop generate_answer concatenate_content fetched_texts kept
        fetched_all].
  destruct (kept (u :: urls) (fetched_texts svc (u :: urls) (world st1)))
    as [|a articles]; [reflexivity|].
  destruct (generate (concatenate_content (a :: articles)) q
              (fetched_all svc (u :: urls) st1)) as [[answer|e] st3];
    reflexivity.
Qed.

Lemma provided_query_inv (get_json : result value) (q : value) :
  provided_query get_json = Some q ->
  exists d, get_json = Ok (VDict d) /\ Py.lookup "query" d = Some q.
Proof.
  destruct get_json as [[| | | | |d]|e]; simpl; try discriminate.
  intros H. exists d. auto.
Qed.

(** The three ways a request that carries a query ends. *)
Lemma query_provided_cases (get_json : result value) (q : value)
    (w : W) (inst : option client) :
  provided_query get_json = Some q ->
  let found := search_articles svc q API_KEY (start w inst) in
  let run := handler get_json (start w inst) in
  (no_urls found = true
   /\ run = (Ok (error_reply "No articles found" 404),
             searched svc q API_KEY (start w inst)))
  \/ (no_urls found = false /\ no_content svc found = true
      /\ exists urls,
           run = (Ok (error_reply "Could not fetch any article content" 404),
                  fetched_all svc urls
                    (searched svc q API_KEY (start w inst))))
  \/ (no_urls found = false /\ no_content svc found = false
      /\ exists reply,
           fst run = Ok reply
           /\ (status reply = 200%Z \/ status reply = 500%Z)).
Proof.
  intros Hprovided found run. subst found run.
  destruct (provided_query_inv _ Hprovided) as (d & -> & Hquery).
  destruct (search_articles_run svc q API_KEY (start w inst))
    as (v & Hsearch & Hshape).
  unfold no_urls, no_content. rewrite Hsearch.
  cbn [fst snd].
  destruct (Py.truthy v) eqn:Htruthy; cbn [negb].
  2: { left. split; [reflexivity|].
       eapply query_no_urls; eassumption. }
  right.
  destruct Hshape as [->|(urls & -> & _)]; [discriminate|].
  destruct urls as [|u urls]; [discriminate|].
  erewrite query_with_urls by eassumption.
  pose proof (kept_none (u :: urls)
                (fetched_texts svc (u :: urls)
                   (world (searched svc q API_KEY (start w inst))))
                (fetched_texts_length _ _)) as Hnone.
  destruct (kept (u :: urls) _) as [|a articles] eqn:Hkept.
  - left. split; [reflexivity|].
    split; [apply Hnone; reflexivity|].
    exists (u :: urls). reflexivity.
  - right. split; [reflexivity|]. split.
    + destruct (forallb _ _); [|reflexivity].
      destruct Hnone as [_ Hnone]. discriminate (Hnone eq_refl).
    + cbv zeta. match goal with
      | |- context [generate_answer ?s ?k ?m ?r ?c ?x ?y] =>
          destruct (generate_answer s k m r c x y) as [[answer|e] st3]
      end; eexists; (split; [reflexivity|]); [left | right]; reflexivity.
Qed.

(** C1, as amended.  For every request whose JSON body is an object
    without a ['query'] key, the handler returns 400 with the error
    message "No query provided", and nothing has been called: the trace is
    empty and the state is the one the request started from. *)
Theorem query_missing_key_bad_request (d : list (string * value))
    (w : W) (inst : option client) :
  Py.lookup "query" d = None ->
  handler (Ok (VDict d)) (start w inst) =
    (Ok {| body := VDict [("error", VStr "No query provided")];
           status := 400 |},
     start w inst)
  /\ trace (snd (handler (Ok (VDict d)) (start w inst))) = [].
Proof.
  intros Hquery. rewrite query_missing_key_run by assumption.
  split; reflexivity.
Qed.

(** C2.  When the request carries a query, search returns URLs and at
    least one fetch gives a non-empty text, the handler answers 200; the
    ["sources"] are the URLs whose fetch gave a non-empty text, in the
    order of the search results, of which they are a subsequence; and the
    ["answer"] is the very value [generate_answer] returned for the
    aggregated document of the kept articles. *)
Theorem query_success (d : list (string * value)) (q : value)
    (w : W) (inst : option client) (urls : list value)
    (st1 st3 : state W client) (answer : value) :
  Py.lookup "query" d = Some q ->
  search_articles svc q API_KEY (start w inst) = (Ok (VList urls), st1) ->
  let texts := fetched_texts svc urls (world st1) in
  let articles := kept urls texts in
  existsb PyStr.truthy texts = true ->
  generate (concatenate_content articles) q (fetched_all svc urls st1)
    = (Ok answer, st3) ->
  handler (Ok (VDict d)) (start w inst) =
    (Ok {| body := VDict [("answer", answer);
                          ("sources", VList (map url articles))];
           status := 200 |}, st3)
  /\ map url articles =
     map fst (filter (fun p => PyStr.truthy (snd p)) (combine urls texts))
  /\ Subsequence (map url articles) urls
  /\ Forall (fun a => content a <> "") articles.
Proof.
  intros Hquery Hsearch texts articles Hsome Hanswer.
  split; [|split; [apply kept_sources | split; [apply kept_subsequence|]]].
  - destruct urls as [|u urls]; [discriminate Hsome|].
    erewrite query_with_urls by eassumption.
    pose proof (kept_some (u :: urls) texts (fetched_texts_length _ _) Hsome)
      as Hkept.
    fold texts. fold articles. fold articles in Hkept.
    destruct articles as [|a rest]; [contradiction|].
    cbv zeta. rewrite Hanswer. reflexivity.
  - apply Forall_impl
      with (P := fun a => PyStr.truthy (content a) = true);
      [|apply kept_contents].
    intros a Ha Hempty. rewrite Hempty in Ha. discriminate.
Qed.

(** C3.  The handler answers 404 exactly when the request carries a query
    and either search yields no URLs or every fetch yields empty content.
    In the first case the message is "No articles found" and the trace
    holds no fetch (and no synthesis); in the second the message is "Could
    not fetch any article content" and the trace holds no synthesis. *)
Theorem query_not_found_iff (get_json : result value) (w : W)
    (inst : option client) :
  let run := handler get_json (start w inst) in
  ((exists reply, fst run = Ok reply /\ status reply = 404%Z)
   <-> exists q,
         provided_query get_json = Some q
         /\ (no_urls (search_articles svc q API_KEY (start w inst)) = true
             \/ no_content svc
                  (search_articles svc q API_KEY (start w inst)) = true))
  /\ (forall q,
        provided_query get_json = Some q ->
        no_urls (search_articles svc q API_KEY (start w inst)) = true ->
        fst run = Ok (error_reply "No articles found" 404)
        /\ existsb is_fetch_event (trace (snd run)) = false
        /\ existsb is_generate_event (trace (snd run)) = false)
  /\ (forall q,
        provided_query get_json = Some q ->
        no_urls (search_articles svc q API_KEY (start w inst)) = false ->
        no_content svc (search_articles svc q API_KEY (start w inst)) = true ->
        fst run = Ok (error_reply "Could not fetch any article content" 404)
        /\ existsb is_generate_event (trace (snd run)) = false).
Proof.
  intros run. subst run. split; [split|split].
  - intros (reply & Hreply & Hstatus).
    destruct (provided_query get_json) as [q|] eqn:Hprovided.
    + exists q. split; [reflexivity|].
      destruct (query_provided_cases get_json w inst Hprovided)
        as [[Hno _]|[(_ & Hno & _)|(_ & _ & reply' & Hreply' & Hst)]];
        auto.
      rewrite Hreply in Hreply'. injection Hreply' as <-.
      rewrite Hstatus in Hst. destruct Hst; discriminate.
    + destruct (query_not_provided get_json (start w inst) Hprovided)
        as (reply' & Hrun & Hst).
      rewrite Hrun in Hreply. injection Hreply as <-.
      rewrite Hstatus in Hst. destruct Hst; discriminate.
  - intros (q & Hprovided & Hcase).
    destruct (query_provided_cases get_json w inst Hprovided)
      as [[_ ->]|[(_ & _ & urls & ->)|(Hurls & Hcontent & _)]].
    + eexists; split; reflexivity.
    + eexists; split; reflexivity.
    + rewrite Hurls, Hcontent in Hcase. destruct Hcase; discriminate.
  - intros q Hprovided Hno.
    destruct (query_provided_cases get_json w inst Hprovided)
      as [[_ ->]|[(Hurls & _)|(Hurls & _)]];
      [|rewrite Hurls in Hno; discriminate..].
    repeat split.
  - intros q Hprovided Hurls Hcontent.
    destruct (query_provided_cases get_json w inst Hprovided)
      as [[Hno _]|[(_ & _ & urls & ->)|(_ & Hcontent' & _)]].
    + rewrite Hurls in Hno; discriminate.
    + split; [reflexivity|]. cbn [snd fetched_all searched trace start].
      rewrite existsb_app. apply fetch_events_not_generate.
    + rewrite Hcontent in Hcontent'; discriminate.
Qed.

(** C9.  When the provider answers 200 and ['organic' in data] is false for
    the JSON of the response (an object without this key),
    [search_articles] returns [None], not a list; the emptiness check of the
    handler holds for [None] as for the empty list, and the handler answers
    404 "No articles found". *)
Theorem query_search_without_organic (d : list (string * value))
    (q data : value) (w w' : W) (inst : option client) (response : Response) :
  Py.lookup "query" d = Some q ->
  requests_post svc API_KEY (VDict [("q", q)]) w = (Ok response, w') ->
  status_code response = 200%Z ->
  json response = Ok data ->
  Py.contains "organic" data = Ok false ->
  fst (search_articles svc q API_KEY (start w inst)) = Ok VNone
  /\ (forall l, Ok (A:=value) VNone <> Ok (VList l))
  /\ negb (Py.truthy VNone) = negb (Py.truthy (VList []))
  /\ fst (handler (Ok (VDict d)) (start w inst)) =
     Ok {| body := VDict [("error", VStr "No articles found")];
           status := 404 |}.
Proof.
  intros Hquery Hpost Hstatus Hjson Horganic.
  assert (search_articles svc q API_KEY (start w inst) =
          (Ok VNone, searched svc q API_KEY (start w inst))) as Hsearch
    by (eapply search_articles_no_organic; eassumption).
  rewrite Hsearch.
  erewrite query_no_urls by (try eassumption; reflexivity).
  repeat split. intros l; discriminate.
Qed.

End Handler.

(** ** The handler in the small world *)

(** C1, as stated, fails on the body [{"query": ""}]: the body has the key,
    so the handler goes on, calls [search_articles] with the empty string,
    which sends the POST, and in this world answers 200. *)
Lemma empty_query_reaches_search :
  let run := query Demo.happy (Some "groq-key") (Some "serper-key")
               "You are a summarizer." Demo.repr
               (Ok (VDict [("query", VStr "")])) (start 0 None) in
  fst run =
    Ok {| body := VDict [("answer", VStr "Up to 15 W.");
                         ("sources", VList [VStr "https://a.com";
                                            VStr "https://c.com"])];
          status := 200 |}
  /\ fst run <> Ok (error_reply "No query provided" 400)
  /\ firstn 2 (trace (snd run)) =
       [CallSearch (VStr "") (Some "serper-key");
        HttpPost (Some "serper-key") (VDict [("q", VStr "")])].
Proof. vm_compute. repeat split. discriminate. Qed.

Lemma query_missing_key_bad_request_witness :
  query Demo.happy (Some "groq-key") (Some "serper-key")
    "You are a summarizer." Demo.repr
    (Ok (VDict [("question", VStr "wireless charging")])) (start 0 None) =
  (Ok (error_reply "No query provided" 400), start 0 None).
Proof.
  apply (proj1 (query_missing_key_bad_request Demo.happy (Some "groq-key")
                  (Some "serper-key") "You are a summarizer." Demo.repr
                  [("question", VStr "wireless charging")] 0 None eq_refl)).
Defined.

(** The end-to-end scenario of the specification: three results, the second
    times out, the answer cites the first and the third. *)
Lemma query_success_witness :
  fst (query Demo.happy (Some "groq-key") (Some "serper-key")
         "You are a summarizer." Demo.repr
         (Ok (VDict [("query", VStr "wireless charging")])) (start 0 None)) =
  Ok {| body := VDict [("answer", VStr "Up to 15 W.");
                       ("sources", VList [VStr "https://a.com";
                                          VStr "https://c.com"])];
        status := 200 |}.
Proof.
  edestruct (@query_success nat unit Demo.happy (Some "groq-key")
               (Some "serper-key") "You are a summarizer." Demo.repr
               [("query", VStr "wireless charging")]
               (VStr "wireless charging") 0 None)
    as [Hrun _];
    [reflexivity | reflexivity | reflexivity | reflexivity |].
  rewrite Hrun. reflexivity.
Defined.

Lemma query_not_found_iff_witness :
  fst (query (Demo.services (Ok (Demo.found Demo.dead_links))
                            (Ok (Demo.said "unused")))
         (Some "groq-key") (Some "serper-key") "You are a summarizer."
         Demo.repr (Ok (VDict [("query", VStr "wireless charging")]))
         (start 0 None)) =
  Ok (error_reply "Could not fetch any article content" 404).
Proof.
  apply (proj2 (proj2 (query_not_found_iff
                         (Demo.services (Ok (Demo.found Demo.dead_links))
                                        (Ok (Demo.said "unused")))
                         (Some "groq-key") (Some "serper-key")
                         "You are a summarizer." Demo.repr
                         (Ok (VDict [("query", VStr "wireless charging")]))
                         0 None))
               (VStr "wireless charging") eq_refl eq_refl eq_refl).
Defined.

Lemma query_search_without_organic_witness :
  fst (query (Demo.services (Ok (Demo.found Demo.no_organic))
                            (Ok (Demo.said "unused")))
         (Some "groq-key") (Some "serper-key") "You are a summarizer."
         Demo.repr (Ok (VDict [("query", VStr "zzzz")])) (start 0 None)) =
  Ok (error_reply "No articles found" 404).
Proof.
  apply (proj2 (proj2 (proj2 (@query_search_without_organic nat unit
                         (Demo.services (Ok (Demo.found Demo.no_organic))
                                        (Ok (Demo.said "unused")))
                         (Some "groq-key") (Some "serper-key")
                         "You are a summarizer." Demo.repr
                         [("query", VStr "zzzz")] _ _ 0 _ None _
                         eq_refl eq_refl eq_refl eq_refl eq_refl)))).
Defined.

(** * Further properties *)

(** ** Strings *)

Lemma string_append_assoc (a b c : string) : (a ++ b) ++ c = a ++ b ++ c.
Proof. induction a as [|x a IH]; simpl; [reflexivity | now rewrite IH]. Qed.

Lemma string_length_append (a b : string) :
  String.length (a ++ b) = String.length a + String.length b.
Proof. induction a as [|x a IH]; simpl; [reflexivity | now rewrite IH]. Qed.

Lemma slice_to_nonempty (n : nat) (c : ascii) (s : string) :
  PyStr.slice_to (S n) (String c s) = String c (PyStr.slice_to n s).
Proof. reflexivity. Qed.

Lemma lstrip_head (s : string) (c : ascii) (r : string) :
  PyStr.lstrip s = String c r -> PyStr.isspace c = false.
Proof.
  induction s as [|x s IH]; simpl; [discriminate|].
  destruct (PyStr.isspace x) eqn:Hx; [exact IH|].
  intros [= <- _]. exact Hx.
Qed.

Lemma rstrip_head (s : string) (c : ascii) (r : string) :
  PyStr.rstrip s = String c r -> exists r', s = String c r'.
Proof.
  destruct s as [|x s]; simpl; [discriminate|].
  destruct (PyStr.rstrip s).
  - destruct (PyStr.isspace x); [discriminate|].
    intros [= <- _]. now exists s.
  - intros [= <- _]. now exists s.
Qed.

Lemma strip_head (s : string) (c : ascii) (r : string) :
  PyStr.strip s = String c r -> PyStr.isspace c = false.
Proof.
  unfold PyStr.strip. intros H.
  destruct (rstrip_head _ H) as [r' Hl]. exact (lstrip_head _ Hl).
Qed.

Lemma join_head (sep : string) (c : ascii) (p : string) (rest : list string) :
  exists tail, PyStr.join sep (String c p :: rest) = String c tail.
Proof. destruct rest; simpl; eauto. Qed.

(** ** concatenate_content, further *)

(** X1.  The aggregated document does not tell where an article ends: one
    article whose text holds the separator and the label of a second one
    gives the very document of two articles. *)
Theorem concatenate_content_forged_boundary (u u1 u2 : value) (x y : string) :
  concatenate_content
    [{| url := u;
        content := x ++ PyStr.nl ++ PyStr.nl ++ PyStr.nl
                     ++ "Article 2:" ++ PyStr.nl ++ y |}] =
  concatenate_content
    [{| url := u1; content := x |}; {| url := u2; content := y |}].
Proof.
  unfold concatenate_content. cbn [concatenate_loop app content PyStr.join].
  unfold article_block, PyStr.nl.
  change (PyStr.str_of_nat 1) with "1". change (PyStr.str_of_nat 2) with "2".
  repeat (rewrite string_append_assoc || simpl). reflexivity.
Qed.

Lemma article_block_length (idx : nat) (text : string) :
  1 <= idx <= 9 ->
  String.length (article_block idx text) = 13 + String.length text.
Proof.
  intros H. unfold article_block.
  assert (String.length (PyStr.str_of_nat idx) = 1) as Hdigit.
  { destruct idx as [|[|[|[|[|[|[|[|[|[|n]]]]]]]]]]; try reflexivity; lia. }
  rewrite !string_length_append, Hdigit. simpl. lia.
Qed.

(** The document of at most three articles of at most [n] characters. *)
Lemma concatenate_content_length (articles : list Article) (n : nat) :
  List.length articles <= 3 ->
  Forall (fun a => String.length (content a) <= n) articles ->
  String.length (concatenate_content articles) <= 3 * (n + 13) + 2.
Proof.
  intros Hlen Hall. unfold concatenate_content.
  rewrite concatenate_loop_blocks. cbn [app].
  destruct articles as [|a [|b [|c [|d rest]]]]; simpl in Hlen; try lia;
    repeat match goal with
           | H : Forall _ (_ :: _) |- _ => inversion H; subst; clear H
           end;
    cbn [List.length seq combine map fst snd PyStr.join];
    rewrite ?string_length_append, ?article_block_length by lia;
    simpl; lia.
Qed.

(** ** The content of a page, further *)

Lemma join_nonempty_nil (sep : string) (parts : list string) :
  Forall (fun p => PyStr.truthy p = true) parts ->
  (PyStr.join sep parts = "" <-> parts = []).
Proof.
  intros Hall. split; [|intros ->; reflexivity].
  destruct parts as [|p rest]; [reflexivity|].
  inversion Hall as [|? ? Hp _]; subst.
  destruct p as [|c p]; [discriminate|].
  destruct (join_head sep c p rest) as [tail ->]. discriminate.
Qed.

Lemma filter_truthy_nil (texts : list string) :
  filter PyStr.truthy texts = [] <->
  forallb (fun text => negb (PyStr.truthy text)) texts = true.
Proof.
  induction texts as [|t texts IH]; simpl; [tauto|].
  destruct (PyStr.truthy t); simpl; [split; discriminate | exact IH].
Qed.

Lemma filter_truthy_all (texts : list string) :
  Forall (fun p => PyStr.truthy p = true) (filter PyStr.truthy texts).
Proof.
  induction texts as [|t texts IH]; simpl; [constructor|].
  destruct (PyStr.truthy t) eqn:Ht; [constructor|]; assumption.
Qed.

Lemma slice_to_empty (n : nat) (s : string) :
  PyStr.slice_to (S n) s = "" <-> s = "".
Proof. destruct s; simpl; split; congruence. Qed.

(** X2.  The content of a page is empty exactly when none of the paragraphs
    left after the cleaning has text other than whitespace: text that stands
    outside a paragraph never makes a page count as fetched. *)
Theorem page_content_empty_iff (soup : node) :
  page_content soup = "" <->
  forallb (fun text => negb (PyStr.truthy text))
          (paragraph_texts (cleaned soup)) = true.
Proof.
  rewrite page_content_described. unfold described_content.
  change content_limit with (S 4999).
  rewrite slice_to_empty, (join_nonempty_nil " " (filter_truthy_all _)).
  apply filter_truthy_nil.
Qed.

(** X3.  The content of a page never begins with whitespace. *)
Theorem page_content_no_leading_space (soup : node) (c : ascii) (rest : string) :
  page_content soup = String c rest -> PyStr.isspace c = false.
Proof.
  rewrite page_content_described. unfold described_content.
  change content_limit with (S 4999).
  pose proof (filter_truthy_all (paragraph_texts (cleaned soup))) as Hall.
  assert (forall t, In t (filter PyStr.truthy (paragraph_texts (cleaned soup)))
                    -> exists p, t = PyStr.strip p) as Hstrip.
  { intros t Ht. apply filter_In in Ht as [Ht _].
    unfold paragraph_texts in Ht. apply in_map_iff in Ht as (p & <- & _).
    eauto. }
  destruct (filter PyStr.truthy (paragraph_texts (cleaned soup)))
    as [|t texts]; [discriminate|].
  destruct (Hstrip t (or_introl eq_refl)) as [p Hp].
  destruct t as [|x t]; [inversion Hall; discriminate|].
  destruct (join_head " " x t texts) as [tail ->].
  rewrite slice_to_nonempty. intros [= <- _].
  exact (strip_head p (eq_sym Hp)).
Qed.

(** ** Articles and events *)

Lemma kept_length (urls : list value) :
  forall texts, List.length (kept urls texts) <= List.length urls.
Proof.
  induction urls as [|u urls IH]; intros [|t texts]; simpl; try lia.
  destruct (PyStr.truthy t); simpl; specialize (IH texts); lia.
Qed.

Lemma kept_bounded (n : nat) (urls : list value) :
  forall texts,
    Forall (fun t => String.length t <= n) texts ->
    Forall (fun a => String.length (content a) <= n) (kept urls texts).
Proof.
  induction urls as [|u urls IH]; intros [|t texts] H; simpl; auto.
  inversion H; subst. destruct (PyStr.truthy t); auto.
Qed.

Lemma count_fetch_events (urls : list value) :
  count is_get (flat_map (fun u => [CallFetch u; HttpGet u]) urls)
    = List.length urls
  /\ count is_post (flat_map (fun u => [CallFetch u; HttpGet u]) urls) = 0
  /\ count is_model_call (flat_map (fun u => [CallFetch u; HttpGet u]) urls) = 0
  /\ count is_construction
       (flat_map (fun u => [CallFetch u; HttpGet u]) urls) = 0
  /\ documents (flat_map (fun u => [CallFetch u; HttpGet u]) urls) = []
  /\ forallb is_fetch_event
       (flat_map (fun u => [CallFetch u; HttpGet u]) urls) = true.
Proof.
  unfold count. induction urls as [|u urls IH]; simpl.
  - repeat split.
  - destruct IH as (H1 & H2 & H3 & H4 & H5 & H6).
    rewrite H1. repeat split; assumption.
Qed.

Lemma generate_events_counts (evs : list event) :
  forallb is_generate_event evs = true ->
  count is_get evs = 0 /\ count is_post evs = 0.
Proof.
  unfold count. induction evs as [|ev evs IH]; simpl; [auto|].
  intros H. apply andb_prop in H as [Hev Hevs].
  destruct ev; try discriminate; simpl; auto.
Qed.


(** ** The fetches, further *)

Section FetchFurther.

Variables W client : Type.
Variable svc : Services W client.

Lemma fetched_texts_bounded (urls : list value) :
  forall w,
    Forall (fun t => String.length t <= 5000) (fetched_texts svc urls w).
Proof.
  induction urls as [|u urls IH]; intros w; simpl; [constructor|].
  destruct (fetched svc u w) as [text w'] eqn:Hfetched. constructor.
  - destruct (fetched_cases svc u w)
      as [(response & soup & w1 & w2 & _ & _ & _ & _ & _ & Htext)|Htext];
      rewrite Hfetched in Htext; simpl in Htext; subst text.
    + apply page_content_length.
    + simpl; lia.
  - apply IH.
Qed.

(** X18.  The loop of the handler fetches every URL once, in the order of
    the list, whatever the other fetches gave: a failure costs its own
    article only.  What the loop had is kept in front; what it adds are
    articles of the URLs of the list, in their order, each with a content
    that is not empty and of at most 5000 characters. *)
Theorem fetch_loop_isolated (urls : list value) (acc : list Article)
    (st : state W client) :
  exists added w',
    fetch_loop svc urls acc st =
      (Ok (acc ++ added)%list,
       {| world := w'; instance := instance st;
          trace := (trace st
                    ++ flat_map (fun u => [CallFetch u; HttpGet u]) urls)%list |})
    /\ Subsequence (map url added) urls
    /\ Forall (fun a => content a <> ""
                        /\ String.length (content a) <= 5000) added.
Proof.
  exists (kept urls (fetched_texts svc urls (world st))),
         (world_after_fetches svc urls (world st)).
  split; [apply fetch_loop_run|]. split; [apply kept_subsequence|].
  apply Forall_forall. intros a Ha. split.
  - pose proof (kept_contents urls (fetched_texts svc urls (world st))) as H.
    rewrite Forall_forall in H. specialize (H a Ha).
    intros Hempty. rewrite Hempty in H. discriminate.
  - pose proof (kept_bounded urls (fetched_texts_bounded urls (world st)))
      as H.
    rewrite Forall_forall in H. exact (H a Ha).
Qed.

(** X19.  A page that cannot be had gives the empty string and is not
    looked at: when the GET raises, or answers a 4xx or 5xx status, or the
    page cannot be parsed, [fetch_article_content] returns [""] without
    printing anything. *)
Theorem fetch_failure_gives_nothing (u : value) (st : state W client) :
  fetch_failed (fst (requests_get svc u (world st))) = true ->
  fetch_article_content svc u st =
    (Ok "",
     {| world := snd (requests_get svc u (world st));
        instance := instance st;
        trace := (trace st ++ [CallFetch u; HttpGet u])%list |}).
Proof.
  intros Hfailed. unfold fetch_article_content. unfold_M.
  cbn -[page_text PyStr.slice_to content_limit dashes].
  destruct (requests_get svc u (world st)) as [[response|e] w1];
    cbn -[page_text PyStr.slice_to content_limit dashes] in *;
    [|rewrite <- app_assoc; reflexivity].
  destruct (raise_for_status response) as [[]|e];
    cbn -[page_text PyStr.slice_to content_limit dashes];
    [|rewrite <- app_assoc; reflexivity].
  destruct (html response) as [soup|e]; [discriminate|].
  cbn. rewrite <- app_assoc. reflexivity.
Qed.

End FetchFurther.

(** ** search_articles, further *)

Lemma links_scalar (entries : list value) :
  existsb scalar entries = true -> exists e, links entries = Raise e.
Proof.
  induction entries as [|r entries IH]; simpl; [discriminate|].
  intros H. apply orb_prop in H as [Hr|Hrest].
  - destruct r; try discriminate; simpl; eauto.
  - destruct (IH Hrest) as [e He]. rewrite He.
    destruct (Py.contains "link" r) as [[|]|e']; simpl; eauto.
    destruct (Py.getitem r "link"); simpl; eauto.
Qed.

Lemma flat_map_entry_link_length (entries : list value) :
  List.length (flat_map entry_link entries) <= List.length entries.
Proof.
  induction entries as [|entry entries IH]; simpl; [lia|].
  rewrite length_app.
  assert (List.length (entry_link entry) <= 1).
  { destruct entry as [| | | | |d]; simpl; try lia.
    destruct (Py.lookup "link" d); simpl; lia. }
  lia.
Qed.

Lemma firstn_subsequence (A : Type) (l : list A) :
  forall n, Subsequence (firstn n l) l.
Proof.
  induction l as [|x l IH]; intros [|n]; simpl; try constructor.
  - apply (IH 0).
  - apply IH.
Qed.

Section SearchFurther.

Variables W client : Type.
Variable svc : Services W client.

(** X4.  [search_articles] never raises, whatever the provider does.  It
    sends one POST, with the body [{"q": query}] and the key it was given,
    leaves the client of the language model alone, and returns [None] or a
    list of at most three values. *)
Theorem search_articles_one_post (q : value) (k : option string)
    (st : state W client) :
  exists v w',
    search_articles svc q k st =
      (Ok v,
       {| world := w'; instance := instance st;
          trace := (trace st ++ [CallSearch q k;
                                 HttpPost k (VDict [("q", q)])])%list |})
    /\ w' = snd (requests_post svc k (VDict [("q", q)]) (world st))
    /\ (v = VNone \/ exists l, v = VList l /\ List.length l <= 3).
Proof.
  destruct (search_articles_run svc q k st) as (v & Hrun & Hshape).
  exists v, (snd (requests_post svc k (VDict [("q", q)]) (world st))).
  split; [exact Hrun|]. split; [reflexivity | exact Hshape].
Qed.

(** X5.  On a 200 response whose JSON is an object with an ['organic'] list
    of objects, [search_articles] returns the links of the entries that have
    one, in the order of the provider, the first three of them; entries
    without a link are passed over and do not count towards the three. *)
Theorem search_articles_links_in_order (q : value) (k : option string)
    (st : state W client) (response : Response) (w' : W)
    (d : list (string * value)) (entries : list value) :
  requests_post svc k (VDict [("q", q)]) (world st) = (Ok response, w') ->
  status_code response = 200%Z ->
  json response = Ok (VDict d) ->
  Py.lookup "organic" d = Some (VList entries) ->
  forallb is_dict entries = true ->
  fst (search_articles svc q k st) =
    Ok (VList (firstn 3 (flat_map entry_link entries)))
  /\ Subsequence (firstn 3 (flat_map entry_link entries))
                 (flat_map entry_link entries)
  /\ List.length (firstn 3 (flat_map entry_link entries))
     = Nat.min 3 (List.length (flat_map entry_link entries))
  /\ List.length (flat_map entry_link entries) <= List.length entries.
Proof.
  intros Hpost Hstatus Hjson Horganic Hdicts.
  erewrite search_articles_organic by eassumption.
  split; [reflexivity|]. split; [|split].
  - apply firstn_subsequence.
  - apply length_firstn.
  - apply flat_map_entry_link_length.
Qed.

(** X6.  One entry of the organic results that is no container (a number, a
    boolean, [null]) costs all of them: the list comprehension raises, and
    [search_articles] returns the empty list, whatever links the other
    entries hold. *)
Theorem search_articles_scalar_entry (q : value) (k : option string)
    (st : state W client) (response : Response) (w' : W)
    (d : list (string * value)) (entries : list value) :
  requests_post svc k (VDict [("q", q)]) (world st) = (Ok response, w') ->
  status_code response = 200%Z ->
  json response = Ok (VDict d) ->
  Py.lookup "organic" d = Some (VList entries) ->
  existsb scalar entries = true ->
  fst (search_articles svc q k st) = Ok (VList []).
Proof.
  intros Hpost Hstatus Hjson Horganic Hscalar.
  destruct (links_scalar entries Hscalar) as [e He].
  unfold search_articles. unfold_M. cbn -[firstn Py.lookup].
  rewrite Hpost. cbn -[firstn Py.lookup]. rewrite Hstatus, Hjson.
  cbn -[firstn Py.lookup]. rewrite Horganic. cbn -[firstn].
  rewrite He. reflexivity.
Qed.

End SearchFurther.

(** ** The client of the language model, further *)

Lemma count_app (kind : event -> bool) (l1 l2 : list event) :
  count kind (l1 ++ l2) = count kind l1 + count kind l2.
Proof. unfold count. now rewrite filter_app, length_app. Qed.

Lemma count_nil (kind : event -> bool) : count kind [] = 0.
Proof. reflexivity. Qed.

Lemma count_cons (kind : event -> bool) (ev : event) (evs : list event) :
  count kind (ev :: evs) = (if kind ev then 1 else 0) + count kind evs.
Proof. unfold count. simpl. destruct (kind ev); reflexivity. Qed.

Create Rewrite HintDb counting.
#[local] Hint Rewrite count_app count_cons count_nil : counting.

Lemma documents_app (l1 l2 : list event) :
  documents (l1 ++ l2) = (documents l1 ++ documents l2)%list.
Proof. unfold documents. apply flat_map_app. Qed.

Section SynthesisFurther.

Variables W client : Type.
Variable svc : Services W client.
Variable GROQ_API_KEY : option string.
Variable system_message : string.
Variable repr : value -> string.

(** X7.  The client is built once.  A call of [get_instance] that returns a
    client leaves it in [_instance], and the next call returns the same
    client and does nothing else; a call on an existing client changes
    nothing.  A call that raises (no credential, or [ChatGroq] failed) leaves
    [_instance] empty, so that the next call tries again. *)
Theorem get_instance_singleton (st : state W client) :
  match get_instance svc GROQ_API_KEY st with
  | (Ok c, st') =>
      instance st' = Some c
      /\ get_instance svc GROQ_API_KEY st' = (Ok c, st')
      /\ (forall c0, instance st = Some c0 -> c = c0 /\ st' = st)
  | (Raise _, st') => instance st = None /\ instance st' = None
  end.
Proof.
  unfold get_instance. destruct (instance st) as [c0|] eqn:Hinst.
  - unfold ret. rewrite Hinst. split; [reflexivity|].
    split; [reflexivity|]. intros c1 H. injection H as <-. auto.
  - destruct (key_missing GROQ_API_KEY).
    + unfold raise. auto.
    + unfold_M. simpl.
      destruct (ChatGroq svc _ (world st)) as [[c|e] w']; simpl;
        [|auto].
      split; [reflexivity|]. split; [reflexivity|]. intros; discriminate.
Qed.

(** What [generate_answer] does to the state, whatever the model does. *)
Lemma generate_answer_run (content : string) (q : value)
    (st : state W client) :
  exists v w' inst' evs,
    generate_answer svc GROQ_API_KEY system_message repr content q st =
      (Ok v, {| world := w'; instance := inst';
                trace := (trace st ++ CallGenerate content q :: evs)%list |})
    /\ forallb is_generate_event evs = true
    /\ documents evs = []
    /\ count is_model_call evs <= 3
    /\ count is_construction evs <= 1
    /\ (forall c, instance st = Some c ->
                  inst' = Some c /\ count is_construction evs = 0)
    /\ (key_missing GROQ_API_KEY = true -> instance st = None ->
        inst' = None /\ v = VStr fallback_answer /\ evs = []).
Proof.
  unfold generate_answer, get_instance. unfold_M.
  cbn -[user_message key_missing].
  destruct (instance st) as [c0|] eqn:Hinst;
    [|destruct (key_missing GROQ_API_KEY) eqn:Hkey;
      [|destruct (ChatGroq svc _ (world st)) as [[c0|e0] w0]]];
    cbn -[user_message key_missing];
    repeat match goal with
      | |- context [llm_invoke svc ?c ?m ?w] =>
          destruct (llm_invoke svc c m w) as [[?|?] ?];
          cbn -[user_message key_missing]
      | |- context [llm_complete svc ?c ?m ?w] =>
          destruct (llm_complete svc c m w) as [[?|?] ?];
          cbn -[user_message key_missing]
      | |- context [llm_predict svc ?c ?m ?w] =>
          destruct (llm_predict svc c m w) as [[?|?] ?];
          cbn -[user_message key_missing]
      | |- context [is_AttributeError ?e] =>
          destruct (is_AttributeError e);
          cbn -[user_message key_missing]
      end;
    do 4 eexists;
    (split; [rewrite <- ?app_assoc; reflexivity|]);
    cbn; repeat split; try lia; try discriminate;
    try (intros ? [= <-]; reflexivity);
    try (intros; reflexivity); try congruence.
Qed.

(** X8.  With a client at hand, [generate_answer] builds none, calls
    [invoke] once, calls [complete] only when [invoke] raised an
    [AttributeError], and [predict] only when [complete] raised one too: a
    method that returns, or that fails in any other way, ends the chain. *)
Theorem generate_answer_calls (llm : client) (content : string) (q : value)
    (st : state W client) :
  instance st = Some llm ->
  let user := user_message repr content q in
  let messages :=
    [ {| role := "system"; msg_content := system_message |};
      {| role := "user"; msg_content := user |} ] in
  let (r1, w1) := llm_invoke svc llm messages (world st) in
  let (r2, _) := llm_complete svc llm user w1 in
  trace (snd (generate_answer svc GROQ_API_KEY system_message repr
                content q st)) =
  (trace st ++ CallGenerate content q :: LlmInvoke messages
              :: later_calls user r1 r2)%list.
Proof.
  intros Hinst. cbv zeta.
  unfold generate_answer, get_instance. unfold_M.
  cbn -[user_message]. rewrite Hinst. cbn -[user_message].
  destruct (llm_invoke svc llm _ (world st)) as [[r1|e1] w1];
    cbn -[user_message].
  { destruct (llm_complete svc llm _ w1) as [r2 w2].
    rewrite <- !app_assoc. reflexivity. }
  unfold later_calls. cbn -[user_message].
  destruct (is_AttributeError e1); cbn -[user_message].
  2: { destruct (llm_complete svc llm _ w1) as [r2 w2].
       rewrite <- !app_assoc. reflexivity. }
  destruct (llm_complete svc llm _ w1) as [[r2|e2] w2];
    cbn -[user_message]; [rewrite <- !app_assoc; reflexivity|].
  destruct (is_AttributeError e2); cbn -[user_message];
    [|rewrite <- !app_assoc; reflexivity].
  destruct (llm_predict svc llm _ w2) as [[r3|e3] w3];
    cbn -[user_message]; rewrite <- !app_assoc; reflexivity.
Qed.

End SynthesisFurther.

(** ** The handler of /query, further *)

Section HandlerFurther.

Variables W client : Type.
Variable svc : Services W client.
Variables GROQ_API_KEY API_KEY : option string.
Variable system_message : string.
Variable repr : value -> string.

Local Abbreviation handler :=
  (query svc GROQ_API_KEY API_KEY system_message repr).

(** The four ways a request ends. *)
Lemma query_run (get_json : result value) (w : W) (inst : option client) :
  exists reply st',
    handler get_json (start w inst) = (Ok reply, st')
    /\ ((provided_query get_json = None
         /\ (status reply = 400%Z \/ status reply = 500%Z)
         /\ st' = start w inst)
        \/ exists q,
             provided_query get_json = Some q
             /\ ((reply = error_reply "No articles found" 404
                  /\ st' = searched svc q API_KEY (start w inst))
                 \/ exists urls,
                      1 <= List.length urls <= 3
                      /\ ((reply =
                             error_reply "Could not fetch any article content"
                                         404
                           /\ st' = fetched_all svc urls
                                      (searched svc q API_KEY (start w inst)))
                          \/ exists articles answer w' inst' evs,
                               articles =
                                 kept urls
                                   (fetched_texts svc urls
                                      (world (searched svc q API_KEY
                                                (start w inst))))
                               /\ articles <> []
                               /\ reply =
                                    {| body :=
                                         VDict [("answer", answer);
                                                ("sources",
                                                 VList (map url articles))];
                                       status := 200 |}
                               /\ st' =
                                    {| world := w'; instance := inst';
                                       trace :=
                                         (trace (fetched_all svc urls
                                                   (searched svc q API_KEY
                                                      (start w inst)))
                                          ++ CallGenerate
                                               (concatenate_content articles) q
                                             :: evs)%list |}
                               /\ forallb is_generate_event evs = true
                               /\ documents evs = []
                               /\ count is_model_call evs <= 3
                               /\ count is_construction evs <= 1
                               /\ (forall c, inst = Some c ->
                                             inst' = Some c
                                             /\ count is_construction evs = 0)
                               /\ (key_missing GROQ_API_KEY = true ->
                                   inst = None ->
                                   inst' = None
                                   /\ answer = VStr fallback_answer)))).
Proof.
  destruct (provided_query get_json) as [q|] eqn:Hprovided.
  2: { destruct (query_not_provided svc GROQ_API_KEY API_KEY system_message
                   repr get_json (start w inst) Hprovided)
         as (reply & Hrun & Hstatus).
       exists reply, (start w inst). split; [exact Hrun|]. left. auto. }
  destruct (provided_query_inv _ Hprovided) as (d & -> & Hquery).
  destruct (search_articles_run svc q API_KEY (start w inst))
    as (v & Hsearch & Hshape).
  destruct (Py.truthy v) eqn:Htruthy.
  2: { do 2 eexists. split; [eapply query_no_urls; eassumption|].
       right. exists q. split; [reflexivity|]. left. auto. }
  destruct Hshape as [->|(urls & -> & Hlen)]; [discriminate|].
  destruct urls as [|u urls]; [discriminate|].
  erewrite query_with_urls by eassumption.
  destruct (kept (u :: urls) _) as [|a articles] eqn:Hkept.
  - do 2 eexists. split; [reflexivity|].
    right. exists q. split; [reflexivity|]. right. exists (u :: urls).
    split; [simpl in *; lia|]. left. auto.
  - cbv zeta.
    destruct (generate_answer_run svc GROQ_API_KEY system_message repr
                (concatenate_content (a :: articles)) q
                (fetched_all svc (u :: urls)
                   (searched svc q API_KEY (start w inst))))
      as (answer & w' & inst' & evs & Hgen & Hkind & Hdocs & Hcalls & Hnew
          & Hkeep & Hmissing).
    rewrite Hgen. do 2 eexists. split; [reflexivity|].
    right. exists q. split; [reflexivity|]. right. exists (u :: urls).
    split; [simpl in *; lia|]. right.
    exists (a :: articles), answer, w', inst', evs.
    split; [symmetry; exact Hkept|]. split; [discriminate|].
    split; [reflexivity|]. split; [reflexivity|].
    split; [exact Hkind|]. split; [exact Hdocs|].
    split; [exact Hcalls|]. split; [exact Hnew|].
    split.
    + intros c Hc. apply (Hkeep c). exact Hc.
    + intros Hkey Hnone. destruct (Hmissing Hkey Hnone) as (? & ? & _). auto.
Qed.

Lemma kept_in (urls : list value) :
  forall texts a, In a (kept urls texts) -> In (url a) urls.
Proof.
  induction urls as [|u urls IH]; intros [|t texts] a; simpl; try tauto.
  destruct (PyStr.truthy t); simpl.
  - intros [<-|H]; [left; reflexivity | right; eapply IH; eassumption].
  - intros H. right. eapply IH; eassumption.
Qed.

Lemma fetch_events_in (urls : list value) (u : value) :
  In u urls -> In (HttpGet u) (flat_map (fun u => [CallFetch u; HttpGet u]) urls).
Proof.
  intros H. apply in_flat_map. exists u. simpl. auto.
Qed.

(** X9.  The handler lets no exception out: every request gets a reply, and
    its status is 200, 400, 404 or 500. *)
Theorem query_never_raises (get_json : result value) (w : W)
    (inst : option client) :
  exists reply st',
    handler get_json (start w inst) = (Ok reply, st')
    /\ In (status reply) [200; 400; 404; 500]%Z.
Proof.
  destruct (query_run get_json w inst) as (reply & st' & Hrun & Hcases).
  exists reply, st'. split; [exact Hrun|].
  destruct Hcases
    as [(_ & [->| ->] & _)
       |(q & _ & [[-> _]
                 |(urls & _ & [[-> _]|(? & ? & ? & ? & ? & _ & _ & -> & _)])])];
    simpl; auto.
Qed.

(** X10.  A 200 reply cites one, two or three sources, each of them a URL
    that was fetched for this request. *)
Theorem query_sources_bounded (get_json : result value) (w : W)
    (inst : option client) (reply : HttpReply) (st' : state W client) :
  handler get_json (start w inst) = (Ok reply, st') ->
  status reply = 200%Z ->
  exists answer sources,
    body reply = VDict [("answer", answer); ("sources", VList sources)]
    /\ 1 <= List.length sources <= 3
    /\ Forall (fun u => In (HttpGet u) (trace st')) sources.
Proof.
  intros Hreply Hstatus.
  destruct (query_run get_json w inst) as (reply' & st'' & Hrun & Hcases).
  rewrite Hrun in Hreply. injection Hreply as -> ->.
  destruct Hcases
    as [(_ & [H|H] & _)
       |(q & _ & [[-> _]
                 |(urls & Hurls
                   & [[-> _]
                     |(articles & answer & w' & inst' & evs & Harticles
                       & Hsome & -> & -> & _)])])];
    try (rewrite Hstatus in H; discriminate); try discriminate.
  exists answer, (map url articles). split; [reflexivity|].
  rewrite length_map. split.
  - pose proof (kept_length urls
                  (fetched_texts svc urls
                     (world (searched svc q API_KEY (start w inst))))).
    rewrite <- Harticles in *. destruct articles; [contradiction|].
    simpl in *. lia.
  - apply Forall_forall. intros u Hu.
    apply in_map_iff in Hu as (a & <- & Ha). rewrite Harticles in Ha.
    apply kept_in in Ha. simpl. right. right.
    apply in_or_app. left. apply fetch_events_in. exact Ha.
Qed.

(** X11.  The stages of a request never interleave: the trace is the two
    events of the search (with the query of the request and the configured
    key), then the events of the fetches, then those of the synthesis.
    Nothing is fetched when no search was made, and nothing is synthesised
    when nothing was fetched. *)
Theorem query_pipeline_order (get_json : result value) (w : W)
    (inst : option client) :
  exists s f g,
    trace (snd (handler get_json (start w inst))) = (s ++ f ++ g)%list
    /\ (s = []
        \/ exists q,
             provided_query get_json = Some q
             /\ s = [CallSearch q API_KEY;
                     HttpPost API_KEY (VDict [("q", q)])])
    /\ forallb is_fetch_event f = true
    /\ forallb is_generate_event g = true
    /\ (s = [] -> f = [])
    /\ (f = [] -> g = []).
Proof.
  destruct (query_run get_json w inst) as (reply & st' & Hrun & Hcases).
  rewrite Hrun. cbn [snd].
  destruct Hcases
    as [(_ & _ & ->)
       |(q & Hq & [[_ ->]
                  |(urls & Hurls
                    & [[_ ->]
                      |(articles & answer & w' & inst' & evs & _ & _ & _
                        & -> & Hkind & _)])])].
  - exists [], [], []. repeat split; auto.
  - exists [CallSearch q API_KEY; HttpPost API_KEY (VDict [("q", q)])], [], [].
    repeat split; eauto; discriminate.
  - exists [CallSearch q API_KEY; HttpPost API_KEY (VDict [("q", q)])],
           (flat_map (fun u => [CallFetch u; HttpGet u]) urls), [].
    simpl. rewrite app_nil_r. repeat split; eauto; try discriminate.
    apply (count_fetch_events urls).
  - exists [CallSearch q API_KEY; HttpPost API_KEY (VDict [("q", q)])],
           (flat_map (fun u => [CallFetch u; HttpGet u]) urls),
           (CallGenerate (concatenate_content articles) q :: evs).
    simpl. repeat split; eauto; try discriminate.
    + apply (count_fetch_events urls).
    + destruct urls; [simpl in Hurls; lia | discriminate].
Qed.

(** X12.  What a request costs at most: one POST to the search provider,
    three GETs, one construction of the client and three calls of the
    model. *)
Theorem query_cost (get_json : result value) (w : W) (inst : option client) :
  let evs := trace (snd (handler get_json (start w inst))) in
  count is_post evs <= 1
  /\ count is_get evs <= 3
  /\ count is_construction evs <= 1
  /\ count is_model_call evs <= 3.
Proof.
  destruct (query_run get_json w inst) as (reply & st' & Hrun & Hcases).
  cbv zeta. rewrite Hrun. cbn [snd].
  destruct Hcases
    as [(_ & _ & ->)
       |(q & Hq & [[_ ->]
                  |(urls & Hurls
                    & [[_ ->]
                      |(articles & answer & w' & inst' & evs & _ & _ & _
                        & -> & Hkind & _ & Hcalls & Hnew & _)])])];
    cbn [fetched_all searched start trace];
    autorewrite with counting; cbn -[count].
  - lia.
  - lia.
  - destruct (count_fetch_events urls) as (H1 & H2 & H3 & H4 & _).
    rewrite H1, H2, H3, H4. lia.
  - destruct (count_fetch_events urls) as (H1 & H2 & H3 & H4 & _).
    destruct (generate_events_counts evs Hkind) as (G1 & G2).
    rewrite H1, H2, H3, H4, G1, G2. lia.
Qed.

(** X13.  A request hands at most one document to [generate_answer], and it
    is of at most 15041 characters: three articles of 5000 characters, each
    with the 13 characters of its label and line ends, and two separators. *)
Theorem query_document_bounded (get_json : result value) (w : W)
    (inst : option client) :
  let docs := documents (trace (snd (handler get_json (start w inst)))) in
  List.length docs <= 1
  /\ Forall (fun doc => String.length doc <= 3 * (5000 + 13) + 2) docs.
Proof.
  destruct (query_run get_json w inst) as (reply & st' & Hrun & Hcases).
  cbv zeta. rewrite Hrun. cbn [snd].
  destruct Hcases
    as [(_ & _ & ->)
       |(q & Hq & [[_ ->]
                  |(urls & Hurls
                    & [[_ ->]
                      |(articles & answer & w' & inst' & evs & Harticles & _
                        & _ & -> & _ & Hdocs & _)])])];
    cbn [fetched_all searched start trace]; rewrite ?documents_app.
  - cbn. auto.
  - cbn. auto.
  - destruct (count_fetch_events urls) as (_ & _ & _ & _ & H5 & _).
    rewrite H5. cbn. auto.
  - destruct (count_fetch_events urls) as (_ & _ & _ & _ & H5 & _).
    change (CallGenerate (concatenate_content articles) q :: evs)
      with ([CallGenerate (concatenate_content articles) q] ++ evs)%list.
    rewrite documents_app, H5, Hdocs.
    cbn [documents flat_map app List.length].
    split; [lia|]. constructor; [|constructor].
    apply concatenate_content_length.
    + rewrite Harticles.
      etransitivity; [apply kept_length|]. lia.
    + rewrite Harticles. apply kept_bounded, fetched_texts_bounded.
Qed.

(** X14.  A request never replaces or drops the client of the language
    model: with a client in [_instance] before, the same client is there
    after, and none was built. *)
Theorem query_keeps_instance (get_json : result value) (w : W) (c : client) :
  instance (snd (handler get_json (start w (Some c)))) = Some c
  /\ count is_construction
       (trace (snd (handler get_json (start w (Some c))))) = 0.
Proof.
  destruct (query_run get_json w (Some c))
    as (reply & st' & Hrun & Hcases).
  rewrite Hrun. cbn [snd].
  destruct Hcases
    as [(_ & _ & ->)
       |(q & Hq & [[_ ->]
                  |(urls & Hurls
                    & [[_ ->]
                      |(articles & answer & w' & inst' & evs & _ & _ & _
                        & -> & _ & _ & _ & _ & Hkeep & _)])])];
    cbn [fetched_all searched start trace instance];
    autorewrite with counting; cbn -[count].
  - split; reflexivity.
  - split; reflexivity.
  - destruct (count_fetch_events urls) as (_ & _ & _ & H4 & _).
    rewrite H4. split; reflexivity.
  - destruct (Hkeep c eq_refl) as [-> Hnone].
    destruct (count_fetch_events urls) as (_ & _ & _ & H4 & _).
    rewrite H4, Hnone. split; reflexivity.
Qed.

(** X15.  Without the credential of the language model the service still
    answers: a request that finds content gets 200, and its answer is the
    apology; no client is ever built. *)
Theorem query_missing_credential (get_json : result value) (w : W)
    (reply : HttpReply) (st' : state W client) :
  key_missing GROQ_API_KEY = true ->
  handler get_json (start w None) = (Ok reply, st') ->
  instance st' = None
  /\ (status reply = 200%Z ->
      exists sources,
        body reply =
          VDict [("answer",
                  VStr "Sorry, I couldn't generate an answer at this time.");
                 ("sources", VList sources)]).
Proof.
  intros Hkey Hreply.
  destruct (query_run get_json w None) as (reply' & st'' & Hrun & Hcases).
  rewrite Hrun in Hreply. injection Hreply as -> ->.
  destruct Hcases
    as [(_ & [H|H] & ->)
       |(q & Hq & [[-> ->]
                  |(urls & Hurls
                    & [[-> ->]
                      |(articles & answer & w' & inst' & evs & _ & _ & ->
                        & -> & _ & _ & _ & _ & _ & Hmissing)])])];
    try (split; [reflexivity|]; intros Hs; try rewrite Hs in H;
         discriminate).
  destruct (Hmissing Hkey eq_refl) as [-> ->].
  split; [reflexivity|]. intros _. eexists. reflexivity.
Qed.

(** X16.  A failure of the search provider is reported as "No articles
    found": when the POST raises, or answers another status than 200, or
    answers 200 with a body that is not JSON, a request that carries a query
    gets 404, and nothing is fetched. *)
Theorem query_search_failure_not_found (get_json : result value) (q : value)
    (w : W) (inst : option client) :
  provided_query get_json = Some q ->
  search_failed (fst (requests_post svc API_KEY (VDict [("q", q)]) w)) = true ->
  handler get_json (start w inst) =
    (Ok {| body := VDict [("error", VStr "No articles found")];
           status := 404 |},
     {| world := snd (requests_post svc API_KEY (VDict [("q", q)]) w);
        instance := inst;
        trace := [CallSearch q API_KEY;
                  HttpPost API_KEY (VDict [("q", q)])] |}).
Proof.
  intros Hprovided Hfailed.
  destruct (provided_query_inv _ Hprovided) as (d & -> & Hquery).
  assert (search_articles svc q API_KEY (start w inst) =
          (Ok (VList []), searched svc q API_KEY (start w inst))) as Hsearch.
  { unfold search_failed in Hfailed.
    destruct (requests_post svc API_KEY (VDict [("q", q)]) w)
      as [[response|e] w'] eqn:Hpost; simpl in Hfailed.
    - destruct (Z.eqb_spec (status_code response) 200) as [H200|H200];
        simpl in Hfailed.
      + destruct (json response) as [data|e] eqn:Hjson; [discriminate|].
        unfold search_articles, searched. unfold_M. cbn -[firstn].
        rewrite Hpost. cbn -[firstn]. rewrite H200, Hjson. reflexivity.
      + eapply search_articles_not_200; eassumption.
    - eapply search_articles_transport_failure; eassumption. }
  erewrite query_no_urls by (try eassumption; reflexivity).
  reflexivity.
Qed.

(** X17.  A request that carries no query is settled on the spot: the reply
    is 400 or 500 and nothing was called or changed.  It is 500, with the
    text of the exception, when [request.get_json()] raises, and 500 too
    when the body is [true] or a number other than zero, on which
    ['query' not in data] raises. *)
Theorem query_refused_without_calls (get_json : result value)
    (st : state W client) :
  provided_query get_json = None ->
  exists reply,
    handler get_json st = (Ok reply, st)
    /\ (status reply = 400%Z \/ status reply = 500%Z)
    /\ (forall e, get_json = Raise e ->
                  reply = error_reply ("Internal server error: " ++ exn_str e)
                                      500)
    /\ (forall data, get_json = Ok data -> Py.truthy data = false ->
                     reply = error_reply "No query provided" 400)
    /\ (forall data, get_json = Ok data -> scalar data = true ->
                     Py.truthy data = true -> status reply = 500%Z).
Proof.
  intros Hnone.
  destruct (query_not_provided svc GROQ_API_KEY API_KEY system_message repr
              get_json st Hnone) as (reply & Hrun & Hstatus).
  exists reply. split; [exact Hrun|]. split; [exact Hstatus|].
  split; [|split].
  - intros e ->. unfold query, bind, try_except, lift, ret in Hrun.
    simpl in Hrun. now injection Hrun as <-.
  - intros data -> Hfalsy. unfold query, bind, try_except, lift, ret in Hrun.
    cbn -[Py.contains Py.truthy] in Hrun. rewrite Hfalsy in Hrun.
    cbn in Hrun. now injection Hrun as <-.
  - intros data -> Hscalar Htruthy.
    unfold query, bind, try_except, lift, ret in Hrun.
    cbn -[Py.contains Py.truthy] in Hrun. rewrite Htruthy in Hrun.
    destruct data; try discriminate; cbn in Hrun;
      injection Hrun as <-; reflexivity.
Qed.

End HandlerFurther.

(** ** The further properties in the small world *)

Lemma page_content_no_leading_space_witness : PyStr.isspace "Q" = false.
Proof.
  apply (page_content_no_leading_space Demo.page_a
           (rest := "i pads charge at 15 W. Range is short today")).
  reflexivity.
Defined.

Lemma search_articles_links_in_order_witness :
  fst (search_articles Demo.happy (VStr "wireless charging") (Some "key")
         (start 0 (@None unit))) =
  Ok (VList (firstn 3 [VStr "https://a.com"; VStr "https://b.com";
                       VStr "https://c.com"; VStr "https://d.com"])).
Proof.
  apply (proj1 (@search_articles_links_in_order nat unit Demo.happy
                  (VStr "wireless charging") (Some "key")
                  (start 0 None) (Demo.found Demo.organic) 1 _ _
                  eq_refl eq_refl eq_refl eq_refl eq_refl)).
Defined.

Lemma search_articles_scalar_entry_witness :
  fst (search_articles
         (Demo.services (Ok (Demo.found Demo.spoiled)) (Ok (Demo.said "")))
         (VStr "wireless charging") (Some "key") (start 0 (@None unit))) =
  Ok (VList []).
Proof.
  apply (@search_articles_scalar_entry nat unit
           (Demo.services (Ok (Demo.found Demo.spoiled)) (Ok (Demo.said "")))
           (VStr "wireless charging") (Some "key") (start 0 None)
           (Demo.found Demo.spoiled) 1 _ _
           eq_refl eq_refl eq_refl eq_refl eq_refl).
Defined.

Lemma generate_answer_calls_witness :
  List.length
    (trace (snd (generate_answer
                   (Demo.services (Ok (Demo.found Demo.organic))
                                  (Raise Demo.unsupported))
                   (Some "groq-key") "You are a summarizer." Demo.repr
                   "Article 1: ..." (VStr "wireless charging")
                   (start 0 (Some tt))))) = 4.
Proof.
  rewrite (@generate_answer_calls nat unit
             (Demo.services (Ok (Demo.found Demo.organic))
                            (Raise Demo.unsupported))
             (Some "groq-key") "You are a summarizer." Demo.repr
             tt "Article 1: ..." (VStr "wireless charging")
             (start 0 (Some tt)) eq_refl).
  reflexivity.
Defined.

Lemma query_sources_bounded_witness :
  exists answer sources,
    body {| body := VDict [("answer", VStr "Up to 15 W.");
                           ("sources", VList [VStr "https://a.com";
                                              VStr "https://c.com"])];
            status := 200 |} =
      VDict [("answer", answer); ("sources", VList sources)]
    /\ 1 <= List.length sources <= 3.
Proof.
  edestruct (@query_sources_bounded nat unit Demo.happy (Some "groq-key")
               (Some "serper-key") "You are a summarizer." Demo.repr
               (Ok (VDict [("query", VStr "wireless charging")])) 0 None)
    as (answer & sources & Hbody & Hlength & _);
    [vm_compute; reflexivity | reflexivity |].
  exists answer, sources. split; assumption.
Defined.

Lemma query_missing_credential_witness :
  instance (snd (query Demo.happy None (Some "serper-key")
                   "You are a summarizer." Demo.repr
                   (Ok (VDict [("query", VStr "wireless charging")]))
                   (start 0 None))) = None.
Proof.
  refine (proj1 (@query_missing_credential nat unit Demo.happy None
                   (Some "serper-key") "You are a summarizer." Demo.repr
                   (Ok (VDict [("query", VStr "wireless charging")])) 0
                   _ _ eq_refl _)).
  vm_compute. reflexivity.
Defined.

Lemma query_search_failure_not_found_witness :
  fst (query (Demo.services (Raise Demo.timeout) (Ok (Demo.said "unused")))
         (Some "groq-key") (Some "serper-key") "You are a summarizer."
         Demo.repr (Ok (VDict [("query", VStr "wireless charging")]))
         (start 0 None)) =
  Ok (error_reply "No articles found" 404).
Proof.
  rewrite (@query_search_failure_not_found nat unit
             (Demo.services (Raise Demo.timeout) (Ok (Demo.said "unused")))
             (Some "groq-key") (Some "serper-key") "You are a summarizer."
             Demo.repr (Ok (VDict [("query", VStr "wireless charging")]))
             (VStr "wireless charging") 0 None eq_refl eq_refl).
  reflexivity.
Defined.

Lemma query_refused_without_calls_witness :
  exists reply,
    query Demo.happy (Some "groq-key") (Some "serper-key")
      "You are a summarizer." Demo.repr (Ok (VNum 5)) (start 0 None) =
      (Ok reply, start 0 None)
    /\ status reply = 500%Z.
Proof.
  destruct (@query_refused_without_calls nat unit Demo.happy
              (Some "groq-key") (Some "serper-key") "You are a summarizer."
              Demo.repr (Ok (VNum 5)) (start 0 None) eq_refl)
    as (reply & Hrun & _ & _ & _ & Hscalar).
  exists reply. split; [exact Hrun|].
  apply (Hscalar (VNum 5)); reflexivity.
Defined.

Lemma fetch_failure_gives_nothing_witness :
  fst (fetch_article_content Demo.happy (VStr "https://gone.com")
         (start 0 (@None unit))) = Ok "".
Proof.
  rewrite (@fetch_failure_gives_nothing nat unit Demo.happy
             (VStr "https://gone.com") (start 0 None) eq_refl).
  reflexivity.
Defined.

(** ** The missing credential *)

Section MissingCredential.

Variables W client : Type.
Variable svc : Services W client.
Variables GROQ_API_KEY API_KEY : option string.
Variable system_message : string.
Variable repr : value -> string.

(** The reply to a request that carries no query does not depend on the
    credential of the language model. *)
Lemma query_not_provided_any_key (key : option string)
    (get_json : result value) (st : state W client) :
  provided_query get_json = None ->
  query svc GROQ_API_KEY API_KEY system_message repr get_json st =
  query svc key API_KEY system_message repr get_json st.
Proof.
  intros Hnone. destruct get_json as [data|e]; [|reflexivity].
  destruct data as [|b|z|s|l|d]; simpl in Hnone.
  - reflexivity.
  - destruct b; reflexivity.
  - unfold query. unfold_M. simpl. destruct (z =? 0)%Z; reflexivity.
  - unfold query. unfold_M. cbn -[PyStr.contains].
    destruct s as [|c s]; cbn -[PyStr.contains]; [reflexivity|].
    destruct (PyStr.contains "query" (String c s)); reflexivity.
  - unfold query. unfold_M. simpl. destruct l as [|x l]; simpl;
      [reflexivity|].
    destruct (Py.is_str "query" x || existsb (Py.is_str "query") l);
      reflexivity.
  - rewrite !query_missing_key_run by assumption. reflexivity.
Qed.

(** C8, as amended.  The credential of the language model is looked at when
    the client is first needed, not at the start of the process, and its
    absence is not fatal.  While the credential is absent or empty and no
    client exists: [get_instance] raises the [ValueError] "GROQ_API_KEY not
    found in environment variables" at each call and builds nothing;
    [generate_answer] catches it and returns the fallback string, having
    sent nothing to the model; and a request that ends before the synthesis
    (any reply other than 200, under whatever credential) gets the same
    reply and leaves the same state without the credential. *)
Theorem missing_credential_raised_at_first_use :
  key_missing GROQ_API_KEY = true ->
  (forall st : state W client,
      instance st = None ->
      get_instance svc GROQ_API_KEY st = (Raise config_error, st)
      /\ exn_cls config_error = ValueError
      /\ exn_str config_error =
           "GROQ_API_KEY not found in environment variables")
  /\ (forall content q (st : state W client),
        instance st = None ->
        generate_answer svc GROQ_API_KEY system_message repr content q st =
          (Ok (VStr "Sorry, I couldn't generate an answer at this time."),
           {| world := world st; instance := None;
              trace := (trace st ++ [CallGenerate content q])%list |}))
  /\ (forall key get_json w reply st',
        query svc key API_KEY system_message repr get_json (start w None)
          = (Ok reply, st') ->
        status reply <> 200%Z ->
        query svc GROQ_API_KEY API_KEY system_message repr get_json
              (start w None)
          = (Ok reply, st')).
Proof.
  intros Hkey. split; [|split].
  - intros st Hinst. split; [|split; reflexivity].
    unfold get_instance. now rewrite Hinst, Hkey.
  - intros content q st Hinst.
    rewrite generate_answer_missing_credential by assumption.
    unfold entered. now rewrite Hinst.
  - intros key get_json w reply st' Hrun Hstatus.
    destruct (provided_query get_json) as [q|] eqn:Hprovided.
    2: { rewrite (query_not_provided_any_key key) by assumption.
         exact Hrun. }
    destruct (provided_query_inv _ Hprovided) as (d & -> & Hquery).
    destruct (search_articles_run svc q API_KEY (start w None))
      as (v & Hsearch & Hshape).
    destruct (Py.truthy v) eqn:Htruthy.
    2: { erewrite query_no_urls in Hrun by eassumption.
         erewrite query_no_urls by eassumption. exact Hrun. }
    destruct Hshape as [->|(urls & -> & _)]; [discriminate|].
    destruct urls as [|u urls]; [discriminate|].
    erewrite query_with_urls in Hrun by eassumption.
    erewrite query_with_urls by eassumption.
    destruct (kept (u :: urls) _) as [|a articles]; [exact Hrun|].
    exfalso. cbv zeta in Hrun.
    destruct (generate_answer_run svc key system_message repr
                (concatenate_content (a :: articles)) q
                (fetched_all svc (u :: urls)
                   (searched svc q API_KEY (start w None))))
      as (answer & w' & inst' & evs & Hgen & _).
    rewrite Hgen in Hrun. injection Hrun as <- _.
    apply Hstatus. reflexivity.
Qed.

End MissingCredential.

(** C8, as stated, fails at the first synthesis attempt of a process without
    the credential: [generate_answer] raises nothing and returns the
    apology, and the request is answered 200. *)
Lemma missing_credential_is_absorbed :
  let attempt :=
    generate_answer Demo.happy None "You are a summarizer." Demo.repr
      (concatenate_content [Demo.article_a; Demo.article_c])
      (VStr "wireless charging") (start 4 None) in
  let run :=
    query Demo.happy None (Some "serper-key") "You are a summarizer."
      Demo.repr (Ok (VDict [("query", VStr "wireless charging")]))
      (start 0 None) in
  key_missing None = true
  /\ fst attempt = Ok (VStr fallback_answer)
  /\ fst attempt <> Raise config_error
  /\ fst run =
       Ok {| body := VDict [("answer", VStr fallback_answer);
                            ("sources", VList [VStr "https://a.com";
                                               VStr "https://c.com"])];
             status := 200 |}.
Proof. vm_compute. repeat split. discriminate. Qed.

Lemma missing_credential_raised_at_first_use_witness :
  get_instance Demo.happy None (start 0 None) =
    (Raise config_error, start 0 None)
  /\ fst (generate_answer Demo.happy None "You are a summarizer." Demo.repr
            "Article 1: ..." (VStr "wireless charging") (start 0 None))
     = Ok (VStr fallback_answer)
  /\ fst (query Demo.happy None (Some "serper-key") "You are a summarizer."
            Demo.repr (Ok (VDict [("question", VStr "wireless charging")]))
            (start 0 None))
     = Ok (error_reply "No query provided" 400).
Proof.
  destruct (@missing_credential_raised_at_first_use nat unit Demo.happy
              None (Some "serper-key") "You are a summarizer." Demo.repr
              eq_refl) as (Hinstance & Hgenerate & Hearlier).
  split; [|split].
  - apply (proj1 (Hinstance (start 0 None) eq_refl)).
  - rewrite (Hgenerate "Article 1: ..." (VStr "wireless charging")
               (start 0 None) eq_refl). reflexivity.
  - rewrite (Hearlier (Some "groq-key")
               (Ok (VDict [("question", VStr "wireless charging")])) 0
               (error_reply "No query provided" 400) (start 0 None)).
    + reflexivity.
    + vm_compute. reflexivity.
    + discriminate.
Defined.
